(** * Arxiv Multi-View Reviewer: a shallow embedding of [app.py]

  The script has three parts: [ArxivFetcher.search_papers] (a memoised
  search over the arXiv client), [GeminiProcessor.generate_review] (a
  templated request to the generative-text service) and [main] (the
  Streamlit page).  The two remote services are opaque: they are taken
  as functions of the history of the run, so that every statement below
  holds whatever they answer.  Widgets are seen through what they show
  and what they return; their styling arguments ([type], [help],
  [layout]) and the module-level [st.set_page_config] play no part. *)

From Stdlib Require Import ZArith List String Ascii Floats Lia.
From stdpp Require Import base option list strings gmap.
Import ListNotations.

Set Warnings "-inexact-float".
Local Open Scope string_scope.
Local Open Scope list_scope.

(** ** Python values the script relies on *)

Module py.

(** What the script can observe of an exception object raised by a
    library it calls: whether [except Exception] catches it, and what
    [str(e)] (the [{e}] of an f-string) prints. *)
Record foreign_exn := ForeignExn {
  isinstance_Exception : bool;
  str : string
}.

(** Exceptions leaving a function of the script: the [KeyError] of a
    failed dict lookup, or an exception of a library passing through. *)
Inductive exn :=
| KeyError (key : string)
| Foreign (e : foreign_exn).

(** A call either returns or raises. *)
Inductive outcome (E A : Type) :=
| Returned (a : A)
| Raised (e : E).
Arguments Returned {E A} a.
Arguments Raised {E A} e.

Definition lf : string := String (ascii_of_nat 10) EmptyString.

(** [sep.join(items)]: the items in order, [sep] between neighbours.
    CPython walks the items once, writing the separator before every
    item but the first. *)
Definition join (sep : string) (items : list string) : string :=
  snd (fold_left
         (fun (st : bool * string) (item : string) =>
            let '(first, res) := st in
            (false, if first then item else res +:+ sep +:+ item))
         items (true, EmptyString)).

(** Decimal digits, for [%Y], [%m], [%d] and the [{i+1}] of an f-string. *)
Definition digit (n : Z) : ascii := ascii_of_N (Z.to_N (48 + n mod 10)).

Definition pad2 (n : Z) : string :=
  String (digit (n / 10)) (String (digit n) EmptyString).

Definition pad4 (n : Z) : string :=
  String (digit (n / 1000)) (String (digit (n / 100)) (pad2 n)).

Fixpoint str_nat_aux (fuel : nat) (n : Z) (acc : string) : string :=
  match fuel with
  | O => acc
  | S fuel' =>
      let acc' := String (digit n) acc in
      if (n <? 10)%Z then acc' else str_nat_aux fuel' (n / 10) acc'
  end.

(** [str(n)] for an index or a length [n >= 0]. *)
Definition str_nat (n : nat) : string :=
  str_nat_aux (S n) (Z.of_nat n) EmptyString.

(** [datetime.datetime]; the class only holds dates of the proleptic
    Gregorian calendar with [1 <= year <= 9999] (see [valid]). *)
Record datetime := DateTime {
  year : Z; month : Z; day : Z;
  hour : Z; minute : Z; second : Z
}.

Definition is_leap (y : Z) : bool :=
  ((y mod 4 =? 0) && negb (y mod 100 =? 0) || (y mod 400 =? 0))%Z.

Definition days_in_month (y m : Z) : Z :=
  if (m =? 2)%Z then (if is_leap y then 29 else 28)
  else if ((m =? 4) || (m =? 6) || (m =? 9) || (m =? 11))%Z then 30
  else 31.

Definition valid (d : datetime) : bool :=
  ((1 <=? year d) && (year d <=? 9999)
   && (1 <=? month d) && (month d <=? 12)
   && (1 <=? day d) && (day d <=? days_in_month (year d) (month d))
   && (0 <=? hour d) && (hour d <? 24)
   && (0 <=? minute d) && (minute d <? 60)
   && (0 <=? second d) && (second d <? 60))%Z.

(** [d.strftime("%Y-%m-%d")]: four-digit year, two-digit month and day,
    as the Python documentation gives [%Y], [%m] and [%d].  (The C
    library of some platforms leaves the year unpadded below 1000; the
    statements on dates below ask for a year of four digits.) *)
Definition strftime_Ymd (d : datetime) : string :=
  pad4 (year d) +:+ "-" +:+ pad2 (month d) +:+ "-" +:+ pad2 (day d).

End py.
Export py.

(** ** The [arxiv] package, as far as the script uses it *)

Module arxiv.

Inductive SortCriterion := Relevance | LastUpdatedDate | SubmittedDate.

Record Search := mkSearch {
  query : string;
  max_results : Z;
  sort_by : SortCriterion
}.

Record Author := mkAuthor { name : string }.

Record Result := mkResult {
  title : string;
  summary : string;
  entry_id : string;
  published : datetime;
  authors : list Author
}.

(** The generator [Client.results(search)], seen from the [for] loop:
    each [next] yields a result, ends the iteration, or raises. *)
Inductive results_iter :=
| StopIteration
| Yield (r : Result) (rest : results_iter)
| Throw (e : foreign_exn).

End arxiv.

(** ** The [google.generativeai] package, as far as the script uses it *)

Module genai.

Record GenerationConfig := mkGenerationConfig { temperature : float }.

(** [response.text] is a property: reading it returns the text or
    raises (a blocked or empty candidate). *)
Record GenerateContentResponse := mkResponse {
  text : outcome foreign_exn string
}.

End genai.

(** ** Streamlit, as far as the script uses it *)

Module st.

(** Context managers entered by a [with] statement. *)
Inductive block :=
| sidebar
| spinner (text : string)
| container
| expander (label : string)
| column (index : nat).

(** Element and widget calls. *)
Inductive element :=
| title (body : string)
| markdown (body : string)
| header (body : string)
| caption (body : string)
| write (body : string)
| info (body : string)
| success (body : string)
| warning (body : string)
| error (body : string)
| divider
| text_input (label : string)
| slider (label : string) (min_value max_value value : Z)
| button (label : string)
| columns (spec : Z).

End st.

(** ** What a run does to the outside, and the state it runs in *)

(** One dict of [papers]: the five keys are fixed, so a record. *)
Record Paper := mkPaper {
  title : string;
  summary : string;
  url : string;
  published : string;
  authors : string
}.

Inductive event :=
| Enter (b : st.block)
| Exit (b : st.block)
| Show (e : st.element)
| GenaiConfigure (api_key : string)
| ArxivRequest (search : arxiv.Search)
| GeminiRequest (model_name prompt : string) (config : genai.GenerationConfig).

(** The state of the process: the events so far, the clock, and the memo
    table of [st.cache_data] (see [cache_data] below), a map from the
    argument tuple (query, limit) to (timestamp, result). *)
Record World := mkWorld {
  trace : list event;
  now : Z;
  memo : gmap (string * Z) (Z * list Paper)
}.

Definition log (e : event) (w : World) : World :=
  mkWorld (trace w ++ [e]) (now w) (memo w).

Definition remember (key : string * Z) (value : list Paper) (w : World) : World :=
  mkWorld (trace w) (now w) (<[key := (now w, value)]> (memo w)).

(** The clock moves between calls. *)
Definition advance (dt : Z) (w : World) : World :=
  mkWorld (trace w) (now w + dt) (memo w).

(** Computations: state passing over [World], with exceptions of type [E]. *)
Definition M (E A : Type) : Type := World -> outcome E A * World.

Definition ret {E A} (a : A) : M E A := fun w => (Returned a, w).

Definition raise {E A} (e : E) : M E A := fun w => (Raised e, w).

Definition bind {E A B} (c : M E A) (k : A -> M E B) : M E B :=
  fun w =>
    match c w with
    | (Returned a, w') => k a w'
    | (Raised e, w') => (Raised e, w')
    end.

Notation "x <- c ;; k" := (bind c (fun x => k))
  (at level 100, c at next level, right associativity).
Notation "c ;; k" := (bind c (fun _ => k))
  (at level 100, right associativity).

Definition emit {E} (e : event) : M E unit := fun w => (Returned tt, log e w).

Definition show {E} (e : st.element) : M E unit := emit (Show e).

(** [try: body / except Exception as e: handler e].  The bodies of the two
    [try] statements of the script only call into a library, so what they
    raise is a [foreign_exn]; one that is not an [Exception] passes through. *)
Definition try_except_Exception {A}
    (body : M foreign_exn A) (handler : foreign_exn -> M exn A) : M exn A :=
  fun w =>
    match body w with
    | (Returned a, w') => (Returned a, w')
    | (Raised e, w') =>
        if isinstance_Exception e then handler e w' else (Raised (Foreign e), w')
    end.

(** [with block: body]: the block is left however the body ends. *)
Definition with_ {E A} (b : st.block) (body : M E A) : M E A :=
  fun w =>
    let '(r, w') := body (log (Enter b) w) in (r, log (Exit b) w').

(** [d[key]] on a dict with string keys. *)
Definition getitem {V} (d : gmap string V) (key : string) : M exn V :=
  match d !! key with
  | Some v => ret v
  | None => raise (KeyError key)
  end.

(** ** The script *)

Definition PAGE_TITLE : string := "Arxiv Multi-View Reviewer 📚".

Section App.

(** The remote services.  Each answer may depend on everything that
    happened before the request ([trace]): nothing is assumed of them. *)
Variable client_results : list event -> arxiv.Search -> arxiv.results_iter.
Variable generate_content :
  list event -> string -> string -> genai.GenerationConfig ->
  outcome foreign_exn genai.GenerateContentResponse.

(** *** class ArxivFetcher *)

Record ArxivFetcher := mkArxivFetcher { client : unit }.

Definition ArxivFetcher_init : M exn ArxivFetcher := ret (mkArxivFetcher tt).

(** [_self.client.results(search)]: the request goes out and the
    generator is handed to the loop. *)
Definition results (_self : ArxivFetcher) (search : arxiv.Search)
    : M foreign_exn arxiv.results_iter :=
  fun w => (Returned (client_results (trace w) search), log (ArxivRequest search) w).

(** The body of the [for] loop: one dict appended per result. *)
Definition paper_of (result : arxiv.Result) : Paper :=
  {| title := arxiv.title result;
     summary := arxiv.summary result;
     url := arxiv.entry_id result;
     published := strftime_Ymd (arxiv.published result);
     authors := join ", " (map arxiv.name (arxiv.authors result)) |}.

(** [for result in ...: papers.append({...})]; [papers] is the list built
    so far, lost to the caller when the generator raises. *)
Fixpoint for_results (it : arxiv.results_iter) (papers : list Paper)
    : M foreign_exn (list Paper) :=
  match it with
  | arxiv.StopIteration => ret papers
  | arxiv.Yield result rest => for_results rest (papers ++ [paper_of result])
  | arxiv.Throw e => raise e
  end.

(** Lines 29-33: the search handed to the client.  The order of the
    results is asked of the provider here, and nowhere else. *)
Definition search_of (query : string) (max_results : Z) : arxiv.Search :=
  arxiv.mkSearch query max_results arxiv.SubmittedDate.

(** The function under the decorator (lines 25-49). *)
Definition search_papers_body (_self : ArxivFetcher)
    (query : string) (max_results : Z) : M exn (list Paper) :=
  let search := search_of query max_results in
  try_except_Exception
    (it <- results _self search ;;
     for_results it [])
    (fun e =>
       show (st.error ("Arxiv API Error: " +:+ str e)) ;;
       ret []).

(** Modelled from the spec: [st.cache_data(ttl=...)], Streamlit's
    decorator, which is not part of the script.  Sections 4.1 and 9 of the
    spec: a TTL cache keyed by the argument tuple, value = (timestamp,
    result), expiry checked on read, no size bound and no invalidation
    besides expiry.  [_self] is left out of the key by the leading
    underscore of its name.  A value is stored when the function returns;
    nothing is stored when it raises. *)
Definition cache_data (ttl : Z)
    (func : ArxivFetcher -> string -> Z -> M exn (list Paper))
    (_self : ArxivFetcher) (query : string) (max_results : Z)
    : M exn (list Paper) :=
  fun w =>
    let miss :=
      match func _self query max_results w with
      | (Returned value, w') => (Returned value, remember (query, max_results) value w')
      | (Raised e, w') => (Raised e, w')
      end in
    match memo w !! (query, max_results) with
    | Some (stored_at, value) =>
        if (now w <? stored_at + ttl)%Z then (Returned value, w) else miss
    | None => miss
    end.

(** [@st.cache_data(ttl=3600) def search_papers(_self, query, max_results)] *)
Definition search_papers : ArxivFetcher -> string -> Z -> M exn (list Paper) :=
  cache_data 3600 search_papers_body.

(** *** class GeminiProcessor *)

Record GeminiProcessor := mkGeminiProcessor { model_name : string }.

Definition GeminiProcessor_init (api_key : string) : M exn GeminiProcessor :=
  emit (GenaiConfigure api_key) ;;
  ret (mkGeminiProcessor "gemini-1.5-flash").

Definition expert_prompt : string := "
            あなたは熟練のデータサイエンティストです。以下の論文アブストラクトを読み、技術的な専門家の視点で分析してください。
            出力形式:
            - **技術的アプローチ**: 手法やアルゴリズムの核心
            - **新規性**: 既存研究との違い
            - **課題**: 考えられる懸念点
            (Temperature: 0.0 - 事実に忠実)
            ".

Definition beginner_prompt : string := "
            あなたは好奇心旺盛なテックブロガーです。以下の論文アブストラクトを読み、AI初心者やビジネスマンに向けてわかりやすく解説してください。
            出力形式:
            - **ひとことで言うと**: キャッチーなタイトル
            - **何がすごいの？**: 比喩を使ったわかりやすい解説
            - **未来はどうなる？**: この技術が社会実装された時のワクワクする未来
            (Temperature: 0.7 - 創造的)
            ".

(** The dict [prompts] of lines 68-85. *)
Definition prompts : gmap string string :=
  <["expert" := expert_prompt]> (<["beginner" := beginner_prompt]> ∅).

(** Line 90: [0.0 if persona == "expert" else 0.7]. *)
Definition temperature_for (persona : string) : float :=
  if String.eqb persona "expert" then 0.0%float else 0.7%float.

(** Line 93: the f-string around the template and the abstract. *)
Definition full_prompt_for (prompt text : string) : string :=
  prompt +:+ lf +:+ lf +:+ "Target Abstract:" +:+ lf +:+ text.

(** [model.generate_content(full_prompt, generation_config=...)] *)
Definition model_generate_content (self : GeminiProcessor)
    (full_prompt : string) (generation_config : genai.GenerationConfig)
    : M foreign_exn genai.GenerateContentResponse :=
  fun w =>
    let req := GeminiRequest (model_name self) full_prompt generation_config in
    match generate_content (trace w) (model_name self) full_prompt generation_config with
    | Returned response => (Returned response, log req w)
    | Raised e => (Raised e, log req w)
    end.

(** [response.text] *)
Definition response_text (response : genai.GenerateContentResponse)
    : M foreign_exn string :=
  match genai.text response with
  | Returned s => ret s
  | Raised e => raise e
  end.

Definition generate_review (self : GeminiProcessor) (text persona : string)
    : M exn string :=
  let generation_config := genai.mkGenerationConfig (temperature_for persona) in
  prompt <- getitem prompts persona ;;
  let full_prompt := full_prompt_for prompt text in
  try_except_Exception
    (response <- model_generate_content self full_prompt generation_config ;;
     response_text response)
    (fun e => ret ("Error generation review: " +:+ str e)).

(** *** main *)

(** What the widgets return in one run of the script. *)
Record Inputs := mkInputs {
  api_key : string;        (* st.text_input("Gemini API Key", ...) *)
  query : string;          (* st.text_input("Keyword", ...) *)
  max_results : Z;         (* st.slider("Max Papers", 1, 10, 3) *)
  clicked : bool           (* st.button("Search & Analyze ...") *)
}.

(** The body of [for i, paper in enumerate(papers)], from index [i] on. *)
Fixpoint for_papers (processor : GeminiProcessor) (i : nat) (papers : list Paper)
    : M exn unit :=
  match papers with
  | [] => ret tt
  | paper :: rest =>
      with_ st.container
        (show (st.markdown ("### " +:+ str_nat (i + 1) +:+ ". " +:+ title paper)) ;;
         show (st.caption ("Authors: " +:+ authors paper +:+ " | Published: " +:+ published paper)) ;;
         with_ (st.expander "Show Original Abstract")
           (show (st.write (summary paper))) ;;
         show (st.columns 2) ;;
         with_ (st.column 0)
           (show (st.markdown "#### 👓 Expert View (Data Scientist)") ;;
            with_ (st.spinner "Analyzing (Expert)...")
              (review_expert <- generate_review processor (summary paper) "expert" ;;
               show (st.info review_expert))) ;;
         with_ (st.column 1)
           (show (st.markdown "#### 💡 Beginner View (Web/Biz)") ;;
            with_ (st.spinner "Analyzing (Beginner)...")
              (review_beginner <- generate_review processor (summary paper) "beginner" ;;
               show (st.success review_beginner))) ;;
         show st.divider) ;;
      for_papers processor (S i) rest
  end.

(** The text under the title (lines 107-110). *)
Definition intro : string := "
    **GMOインターンシップ応募用ポートフォリオ** 最新のArxiv論文を検索し、**「専門家視点」**と**「初心者視点」**の2つのAIエージェントが同時にレビューします。
    データソースへのアクセスとLLMのハンドリング技術を実証するデモアプリです。
    ".

(** The body of [main] (lines 105-170), with the method it calls on the
    fetcher, [fetcher.search_papers], as a parameter: the page does with
    the search client only what is written here, whatever the client is. *)
Definition main_with
    (search : ArxivFetcher -> string -> Z -> M exn (list Paper))
    (ui : Inputs) : M exn unit :=
  show (st.title PAGE_TITLE) ;;
  show (st.markdown intro) ;;
  with_ st.sidebar
    (show (st.header "⚙️ Settings") ;;
     show (st.text_input "Gemini API Key") ;;
     show st.divider ;;
     show (st.header "🔎 Search Filter") ;;
     show (st.text_input "Keyword") ;;
     show (st.slider "Max Papers" 1 10 3) ;;
     show (st.info "💡 Tip: Try keywords like 'RAG', 'Time Series', 'Transformer'")) ;;
  match api_key ui with
  | EmptyString =>
      show (st.warning "👈 サイドバーにGemini API Keyを入力してスタートしてください。")
  | _ =>
      fetcher <- ArxivFetcher_init ;;
      processor <- GeminiProcessor_init (api_key ui) ;;
      show (st.button "Search & Analyze 🚀") ;;
      if clicked ui then
        papers <- with_ (st.spinner "Fetching papers from Arxiv...")
                    (search fetcher (query ui) (max_results ui)) ;;
        match papers with
        | [] =>
            show (st.warning "論文が見つかりませんでした。キーワードを変えて試してください。")
        | _ =>
            show (st.success (str_nat (length papers) +:+ " 件の論文が見つかりました。AI分析を開始します...")) ;;
            for_papers processor 0 papers
        end
      else ret tt
  end.

(** [main], as the script has it: the fetcher's method is the decorated
    [search_papers]. *)
Definition main (ui : Inputs) : M exn unit := main_with search_papers ui.

End App.

(** ** Observations on a run *)

(** The events a computation added, going from [w] to [w']. *)
Definition since (w w' : World) : list event :=
  drop (length (trace w)) (trace w').

(** The temperatures carried by the requests to the generative service. *)
Definition temperatures (evs : list event) : list float :=
  flat_map (fun e =>
              match e with
              | GeminiRequest _ _ config => [genai.temperature config]
              | _ => []
              end) evs.

(** The searches sent to the arXiv client. *)
Definition arxiv_requests (evs : list event) : list arxiv.Search :=
  flat_map (fun e => match e with ArxivRequest s => [s] | _ => [] end) evs.

(** The requests sent to the generative service. *)
Definition gemini_requests (evs : list event)
    : list (string * string * genai.GenerationConfig) :=
  flat_map (fun e =>
              match e with
              | GeminiRequest model prompt config => [(model, prompt, config)]
              | _ => []
              end) evs.

(** What a generator does when run to its end. *)
Fixpoint yielded (it : arxiv.results_iter) : list arxiv.Result :=
  match it with
  | arxiv.StopIteration => []
  | arxiv.Yield r rest => r :: yielded rest
  | arxiv.Throw _ => []
  end.

Fixpoint thrown (it : arxiv.results_iter) : option foreign_exn :=
  match it with
  | arxiv.StopIteration => None
  | arxiv.Yield _ rest => thrown rest
  | arxiv.Throw e => Some e
  end.

(** The generator that yields [rs] and then goes on as [tail]. *)
Definition yield_all (rs : list arxiv.Result) (tail : arxiv.results_iter)
    : arxiv.results_iter :=
  fold_right arxiv.Yield tail rs.

(** The list a call returned; nothing when it raised. *)
Definition returned {E A} (o : outcome E (list A)) : list A :=
  match o with
  | Returned l => l
  | Raised _ => []
  end.

(** The entry of the memo table a call with this key would be served
    from: present, and younger than [ttl]. *)
Definition fresh_value (ttl : Z) (w : World) (key : string * Z)
    : option (list Paper) :=
  match memo w !! key with
  | Some (stored_at, value) =>
      if (now w <? stored_at + ttl)%Z then Some value else None
  | None => None
  end.

(** Later calls of [search_papers], each after the clock has moved by
    [dt]: what happens to the memo table between two calls of interest. *)
Definition call_later
    (client_results : list event -> arxiv.Search -> arxiv.results_iter)
    (w : World) (c : Z * string * Z) : World :=
  let '(dt, query, max_results) := c in
  snd (search_papers client_results (mkArxivFetcher tt) query max_results
         (advance dt w)).

Definition calls_later
    (client_results : list event -> arxiv.Search -> arxiv.results_iter)
    (cs : list (Z * string * Z)) (w : World) : World :=
  fold_left (call_later client_results) cs w.

Definition waits (cs : list (Z * string * Z)) : list Z := map (fun c => fst (fst c)) cs.

(** ** The data model of the spec, in its own words *)

(** "authors is a flattened join of the author list", comma-joined. *)
Fixpoint comma_join (names : list string) : string :=
  match names with
  | [] => EmptyString
  | [n] => n
  | n :: rest => n +:+ ", " +:+ comma_join rest
  end.

(** One step of a join seen as a fold: the separator, then the item. *)
Definition join_step (sep : string) (res item : string) : string :=
  res +:+ sep +:+ item.

(** "published: date (ISO-8601, day precision)": reading back a string
    of the shape YYYY-MM-DD. *)
Definition digit_value (c : ascii) : option Z :=
  let n := Z.of_N (N_of_ascii c) in
  if ((48 <=? n) && (n <=? 57))%Z then Some (n - 48)%Z else None.

Definition two_digits (a b : ascii) : option Z :=
  match digit_value a, digit_value b with
  | Some x, Some y => Some (10 * x + y)%Z
  | _, _ => None
  end.

Definition parse_Ymd (s : string) : option (Z * Z * Z) :=
  match s with
  | String y1 (String y2 (String y3 (String y4 (String h1
      (String m1 (String m2 (String h2
         (String d1 (String d2 EmptyString))))))))) =>
      if Ascii.eqb h1 "-" && Ascii.eqb h2 "-" then
        match two_digits y1 y2, two_digits y3 y4, two_digits m1 m2, two_digits d1 d2 with
        | Some yh, Some yl, Some m, Some d => Some (100 * yh + yl, m, d)%Z
        | _, _, _, _ => None
        end
      else None
  | _ => None
  end.

(** Orders on dates: tuples compare field by field, as in Python. *)
Fixpoint lex_leb (a b : list Z) : bool :=
  match a, b with
  | [], _ => true
  | _ :: _, [] => false
  | x :: a', y :: b' => (x <? y)%Z || ((x =? y)%Z && lex_leb a' b')
  end.

Definition datetime_leb (a b : datetime) : bool :=
  lex_leb [year a; month a; day a; hour a; minute a; second a]
          [year b; month b; day b; hour b; minute b; second b].

Definition date_leb (a b : Z * Z * Z) : bool :=
  let '(ya, ma, da) := a in
  let '(yb, mb, db) := b in
  lex_leb [ya; ma; da] [yb; mb; db].

(** Papers compared by the date their [published] field spells. *)
Definition published_leb (p q : Paper) : bool :=
  match parse_Ymd (published p), parse_Ymd (published q) with
  | Some a, Some b => date_leb a b
  | _, _ => false
  end.

(** Most recent first: no element is later than the one before it. *)
Fixpoint descending {A} (leb : A -> A -> bool) (l : list A) : bool :=
  match l with
  | a :: (b :: _) as rest => leb b a && descending leb rest
  | _ => true
  end.

(** A result dated as a [datetime] can be, in a year of four digits (the
    provider's records begin in 1991). *)
Definition well_dated (r : arxiv.Result) : bool :=
  valid (arxiv.published r) && (1000 <=? year (arxiv.published r))%Z.

(** The two invariants of the data model, read on the record [p] built
    from the provider's result [r]. *)
Definition well_formed_record (r : arxiv.Result) (p : Paper) : Prop :=
  authors p = comma_join (map arxiv.name (arxiv.authors r))
  /\ parse_Ymd (published p)
     = Some (year (arxiv.published r), month (arxiv.published r),
             day (arxiv.published r))
  /\ String.length (published p) = 10%nat.

(** Every sequence kept in the memo table is most recent first. *)
Definition memo_descending (w : World) : Prop :=
  forall (key : string * Z) (stored_at : Z) (value : list Paper),
    memo w !! key = Some (stored_at, value) ->
    descending published_leb value = true.

(** ** The page of the spec, as the events of a run *)

(** Several events at once. *)
Definition logs (evs : list event) (w : World) : World :=
  mkWorld (trace w ++ evs) (now w) (memo w).

(** What every run shows first: title, introduction, and the sidebar
    with its three inputs. *)
Definition page_top : list event :=
  [ Show (st.title PAGE_TITLE);
    Show (st.markdown intro);
    Enter st.sidebar;
    Show (st.header "⚙️ Settings");
    Show (st.text_input "Gemini API Key");
    Show st.divider;
    Show (st.header "🔎 Search Filter");
    Show (st.text_input "Keyword");
    Show (st.slider "Max Papers" 1 10 3);
    Show (st.info "💡 Tip: Try keywords like 'RAG', 'Time Series', 'Transformer'");
    Exit st.sidebar ].

(** AwaitingCredential: the prompt shown while the credential is empty. *)
Definition credential_prompt : list event :=
  [ Show (st.warning "👈 サイドバーにGemini API Keyを入力してスタートしてください。") ].

(** From a credential to the moment the search is made. *)
Definition opening (ui : Inputs) : list event :=
  page_top ++
  [ GenaiConfigure (api_key ui);
    Show (st.button "Search & Analyze 🚀");
    Enter (st.spinner "Fetching papers from Arxiv...") ].

(** The request of one review: template of the persona, then the abstract. *)
Definition review_request (model : string) (persona prompt : string) (paper : Paper)
    : event :=
  GeminiRequest model (full_prompt_for prompt (summary paper))
    (genai.mkGenerationConfig (temperature_for persona)).

(** Rendering one record: title, author/date caption, the abstract in an
    expander, then the two reviews side by side, expert first. *)
Definition card (model : string) (i : nat) (paper : Paper)
    (review_expert review_beginner : string) : list event :=
  [ Enter st.container;
    Show (st.markdown ("### " +:+ str_nat (i + 1) +:+ ". " +:+ title paper));
    Show (st.caption ("Authors: " +:+ authors paper +:+ " | Published: " +:+ published paper));
    Enter (st.expander "Show Original Abstract");
    Show (st.write (summary paper));
    Exit (st.expander "Show Original Abstract");
    Show (st.columns 2);
    Enter (st.column 0);
    Show (st.markdown "#### 👓 Expert View (Data Scientist)");
    Enter (st.spinner "Analyzing (Expert)...");
    review_request model "expert" expert_prompt paper;
    Show (st.info review_expert);
    Exit (st.spinner "Analyzing (Expert)...");
    Exit (st.column 0);
    Enter (st.column 1);
    Show (st.markdown "#### 💡 Beginner View (Web/Biz)");
    Enter (st.spinner "Analyzing (Beginner)...");
    review_request model "beginner" beginner_prompt paper;
    Show (st.success review_beginner);
    Exit (st.spinner "Analyzing (Beginner)...");
    Exit (st.column 1);
    Show st.divider;
    Exit st.container ].

(** What a card has shown when the expert review is asked for, and when
    the beginner review is asked for, the expert one being on the page. *)
Definition before_expert (i : nat) (paper : Paper) : list event :=
  [ Enter st.container;
    Show (st.markdown ("### " +:+ str_nat (i + 1) +:+ ". " +:+ title paper));
    Show (st.caption ("Authors: " +:+ authors paper +:+ " | Published: " +:+ published paper));
    Enter (st.expander "Show Original Abstract");
    Show (st.write (summary paper));
    Exit (st.expander "Show Original Abstract");
    Show (st.columns 2);
    Enter (st.column 0);
    Show (st.markdown "#### 👓 Expert View (Data Scientist)");
    Enter (st.spinner "Analyzing (Expert)...") ].

Definition before_beginner (model : string) (i : nat) (paper : Paper)
    (review_expert : string) : list event :=
  before_expert i paper
  ++ [ review_request model "expert" expert_prompt paper;
       Show (st.info review_expert);
       Exit (st.spinner "Analyzing (Expert)...");
       Exit (st.column 0);
       Enter (st.column 1);
       Show (st.markdown "#### 💡 Beginner View (Web/Biz)");
       Enter (st.spinner "Analyzing (Beginner)...") ].

(** The records in order, each with its pair of reviews. *)
Fixpoint cards (model : string) (i : nat) (papers : list Paper)
    (reviews : list (string * string)) : list event :=
  match papers, reviews with
  | paper :: papers', (review_expert, review_beginner) :: reviews' =>
      card model i paper review_expert review_beginner
      ++ cards model (S i) papers' reviews'
  | _, _ => []
  end.

(** The reviews on the cards are the ones the Review Generator returned:
    for each record in order, [review_expert] is what [generate_review]
    returns for the record's abstract and the persona expert, called when
    the card has got to its expert panel, and [review_beginner] what it
    returns for the persona beginner, called after the expert review has
    been shown.  [w] is the world the first card starts in. *)
Fixpoint reviews_returned
    (generate_content :
       list event -> string -> string -> genai.GenerationConfig ->
       outcome foreign_exn genai.GenerateContentResponse)
    (processor : GeminiProcessor) (i : nat) (papers : list Paper)
    (reviews : list (string * string)) (w : World) : Prop :=
  match papers, reviews with
  | [], [] => True
  | paper :: papers', (review_expert, review_beginner) :: reviews' =>
      fst (generate_review generate_content processor (summary paper) "expert"
             (logs (before_expert i paper) w))
      = Returned review_expert
      /\ fst (generate_review generate_content processor (summary paper) "beginner"
                (logs (before_beginner (model_name processor) i paper review_expert) w))
         = Returned review_beginner
      /\ reviews_returned generate_content processor (S i) papers' reviews'
           (logs (card (model_name processor) i paper review_expert review_beginner) w)
  | _, _ => False
  end.

(** Rendering: "not found" for an empty sequence, the cards otherwise. *)
Definition results_view (model : string) (papers : list Paper)
    (reviews : list (string * string)) : list event :=
  match papers with
  | [] => [ Show (st.warning "論文が見つかりませんでした。キーワードを変えて試してください。") ]
  | _ =>
      Show (st.success (str_nat (length papers)
                        +:+ " 件の論文が見つかりました。AI分析を開始します..."))
      :: cards model 0 papers reviews
  end.

(** The two requests a record is due, in the order they are made. *)
Definition requests_due (model : string) (paper : Paper)
    : list (string * string * genai.GenerationConfig) :=
  [ (model, full_prompt_for expert_prompt (summary paper),
     genai.mkGenerationConfig 0.0%float);
    (model, full_prompt_for beginner_prompt (summary paper),
     genai.mkGenerationConfig 0.7%float) ].

(** The errors of the two services are ordinary ones. *)
Definition provider_errors_are_Exceptions
    (client_results : list event -> arxiv.Search -> arxiv.results_iter) : Prop :=
  forall (h : list event) (s : arxiv.Search) (e : foreign_exn),
    thrown (client_results h s) = Some e -> isinstance_Exception e = true.

Definition service_errors_are_Exceptions
    (generate_content :
       list event -> string -> string -> genai.GenerationConfig ->
       outcome foreign_exn genai.GenerateContentResponse) : Prop :=
  forall (h : list event) (m p : string) (c : genai.GenerationConfig) (e : foreign_exn),
    (generate_content h m p c = Raised e
     \/ generate_content h m p c = Returned (genai.mkResponse (Raised e))) ->
    isinstance_Exception e = true.

(** ** Blocks entered and left *)

Definition block_eqb (a b : st.block) : bool :=
  match a, b with
  | st.sidebar, st.sidebar => true
  | st.spinner s, st.spinner t => String.eqb s t
  | st.container, st.container => true
  | st.expander s, st.expander t => String.eqb s t
  | st.column i, st.column j => Nat.eqb i j
  | _, _ => false
  end.

(** Reading a trace with the stack of the blocks that are open: every
    [Exit] has to close the block entered last. *)
Fixpoint nesting (open : list st.block) (evs : list event)
    : option (list st.block) :=
  match evs with
  | [] => Some open
  | Enter b :: rest => nesting (b :: open) rest
  | Exit b :: rest =>
      match open with
      | b' :: open' => if block_eqb b b' then nesting open' rest else None
      | [] => None
      end
  | _ :: rest => nesting open rest
  end.

Definition well_nested (evs : list event) : Prop := nesting [] evs = Some [].

(** A computation whose events leave the open blocks as they found them,
    however it ends. *)
Definition tidy {E A} (c : M E A) : Prop :=
  forall w : World,
    exists evs : list event,
      trace (snd (c w)) = trace w ++ evs
      /\ forall open : list st.block, nesting open evs = Some open.

(** The elements shown, in order. *)
Definition shown (evs : list event) : list st.element :=
  flat_map (fun e => match e with Show el => [el] | _ => [] end) evs.

(** What a review panel shows when the request failed with [e]. *)
Definition error_report (e : foreign_exn) : string :=
  "Error generation review: " +:+ str e.

(** ** Sample data, for the concrete runs at the end *)

Module sample.

Definition r1 : arxiv.Result :=
  arxiv.mkResult "Agents that plan" "We study planning." "http://arxiv.org/abs/2403.00002v1"
    (DateTime 2024 3 7 17 59 58) [arxiv.mkAuthor "A. Turing"; arxiv.mkAuthor "E. Noether"].

Definition r2 : arxiv.Result :=
  arxiv.mkResult "Agents that read" "We study reading." "http://arxiv.org/abs/2403.00001v1"
    (DateTime 2024 3 6 9 0 0) [arxiv.mkAuthor "K. Goedel"].

Definition timeout : foreign_exn := ForeignExn true "HTTP 503".

Definition interrupt : foreign_exn := ForeignExn false "KeyboardInterrupt".

(** A client that answers every search with two results. *)
Definition two_results (_ : list event) (_ : arxiv.Search) : arxiv.results_iter :=
  yield_all [r1; r2] arxiv.StopIteration.

(** A client whose second page fails: one result, then an error. *)
Definition broken_page (_ : list event) (_ : arxiv.Search) : arxiv.results_iter :=
  yield_all [r1] (arxiv.Throw timeout).

(** A service that always answers. *)
Definition answers (_ : list event) (_ prompt : string) (_ : genai.GenerationConfig)
    : outcome foreign_exn genai.GenerateContentResponse :=
  Returned (genai.mkResponse (Returned "A review.")).

(** A service that is out of quota. *)
Definition refuses (_ : list event) (_ _ : string) (_ : genai.GenerationConfig)
    : outcome foreign_exn genai.GenerateContentResponse :=
  Raised (ForeignExn true "429 quota exceeded").

Definition fetcher : ArxivFetcher := mkArxivFetcher tt.

Definition processor : GeminiProcessor := mkGeminiProcessor "gemini-1.5-flash".

Definition w0 : World := mkWorld [] 1700000000 ∅.

(** A client that fails on the first search of a run and answers after. *)
Definition recovering (h : list event) (_ : arxiv.Search) : arxiv.results_iter :=
  match arxiv_requests h with
  | [] => arxiv.Throw timeout
  | _ => yield_all [r1; r2] arxiv.StopIteration
  end.

(** A client stopped from the keyboard. *)
Definition interrupted (_ : list event) (_ : arxiv.Search) : arxiv.results_iter :=
  yield_all [r1] (arxiv.Throw interrupt).

(** A service whose answer has no text to read. *)
Definition blocked : foreign_exn := ForeignExn true "response was blocked".

Definition unreadable (_ : list event) (_ _ : string) (_ : genai.GenerationConfig)
    : outcome foreign_exn genai.GenerateContentResponse :=
  Returned (genai.mkResponse (Raised blocked)).

(** A service whose answer tells which temperature it was asked at. *)
Definition by_temperature (_ : list event) (_ _ : string)
    (config : genai.GenerationConfig)
    : outcome foreign_exn genai.GenerateContentResponse :=
  Returned (genai.mkResponse
              (Returned (if PrimFloat.eqb (genai.temperature config) 0.0
                         then "A sober review." else "A lively review."))).

(** A service stopped from the keyboard. *)
Definition stopped (_ : list event) (_ _ : string) (_ : genai.GenerationConfig)
    : outcome foreign_exn genai.GenerateContentResponse :=
  Raised interrupt.

End sample.

(** * Properties *)

(** ** Bookkeeping on traces *)

Lemma since_extend (w w' : World) (evs : list event) :
  trace w' = trace w ++ evs -> since w w' = evs.
Proof. intros H. unfold since. rewrite H. apply drop_app_length. Qed.

Lemma since_log (w : World) (e : event) : since w (log e w) = [e].
Proof. apply since_extend. reflexivity. Qed.

Lemma since_refl (w : World) : since w w = [].
Proof. apply since_extend. symmetry. apply app_nil_r. Qed.

Lemma prefix_append (s t : string) : String.prefix s (s +:+ t) = true.
Proof.
  induction s as [|a s IH]; [destruct t; reflexivity|].
  change (String a s +:+ t) with (String a (s +:+ t)).
  cbn [String.prefix].
  destruct (ascii_dec a a) as [_|Hne]; [exact IH | congruence].
Qed.

(** ** The review generator *)

Lemma prompts_expert : prompts !! "expert" = Some expert_prompt.
Proof. unfold prompts. apply lookup_insert_eq. Qed.

Lemma prompts_beginner : prompts !! "beginner" = Some beginner_prompt.
Proof.
  unfold prompts. rewrite lookup_insert_ne by discriminate.
  apply lookup_insert_eq.
Qed.

Lemma prompts_other (persona : string) :
  persona <> "expert" -> persona <> "beginner" -> prompts !! persona = None.
Proof.
  intros He Hb. unfold prompts.
  rewrite lookup_insert_ne by congruence.
  rewrite lookup_insert_ne by congruence.
  apply lookup_empty.
Qed.

Lemma prompts_lookup (persona : string) :
  prompts !! persona =
    if String.eqb persona "expert" then Some expert_prompt
    else if String.eqb persona "beginner" then Some beginner_prompt
    else None.
Proof.
  destruct (String.eqb_spec persona "expert") as [->|He].
  - apply prompts_expert.
  - destruct (String.eqb_spec persona "beginner") as [->|Hb].
    + apply prompts_beginner.
    + apply prompts_other; assumption.
Qed.

Section Review.

Variable generate_content :
  list event -> string -> string -> genai.GenerationConfig ->
  outcome foreign_exn genai.GenerateContentResponse.

(** Once the template is found, exactly one request goes out, whatever
    the service answers. *)
Lemma generate_review_request (self : GeminiProcessor) (text persona prompt : string)
    (w : World) :
  prompts !! persona = Some prompt ->
  snd (generate_review generate_content self text persona w) =
    log (GeminiRequest (model_name self) (full_prompt_for prompt text)
           (genai.mkGenerationConfig (temperature_for persona))) w.
Proof.
  intros Hp.
  unfold generate_review, bind, getitem, try_except_Exception,
    model_generate_content, response_text, ret, raise.
  rewrite Hp. cbn.
  destruct (generate_content _ _ _ _) as [[[s|e]]|e]; cbn;
    try destruct (isinstance_Exception e); reflexivity.
Qed.

(** C1. The temperature sent to the generative-text service depends on the
    persona alone: a call for "expert" sends one request, at 0.0; a call
    for "beginner" sends one request, at 0.7; a call for any other persona
    sends none.  So no request of [generate_review] carries another value. *)
Theorem temperature_by_persona (self : GeminiProcessor) (text persona : string)
    (w : World) :
  temperatures (since w (snd (generate_review generate_content self text persona w))) =
    (if String.eqb persona "expert" then [0.0%float]
     else if String.eqb persona "beginner" then [0.7%float]
     else [])
  /\ Forall (fun t => t = 0.0%float \/ t = 0.7%float)
       (temperatures (since w (snd (generate_review generate_content self text persona w))))
  /\ 0.0%float <> 0.7%float.
Proof.
  assert (Hmain :
    temperatures (since w (snd (generate_review generate_content self text persona w))) =
      (if String.eqb persona "expert" then [0.0%float]
       else if String.eqb persona "beginner" then [0.7%float]
       else [])).
  { pose proof (prompts_lookup persona) as Hl.
    destruct (String.eqb_spec persona "expert") as [->|He].
    - rewrite (generate_review_request _ _ _ _ _ Hl), since_log. reflexivity.
    - destruct (String.eqb_spec persona "beginner") as [->|Hb].
      + rewrite (generate_review_request _ _ _ _ _ Hl), since_log. reflexivity.
      + unfold generate_review, bind, getitem, raise. rewrite Hl. cbn.
        rewrite since_refl. reflexivity. }
  split; [exact Hmain|]. split.
  - rewrite Hmain.
    destruct (String.eqb persona "expert");
      [constructor; [left; reflexivity | constructor] |].
    destruct (String.eqb persona "beginner");
      [constructor; [right; reflexivity | constructor] | constructor].
  - intros H.
    assert (Hc : PrimFloat.ltb 0.0 0.0 = PrimFloat.ltb 0.0 0.7) by (rewrite <- H; reflexivity).
    vm_compute in Hc. discriminate.
Qed.

(** C9. For every persona string other than "expert" and "beginner" the
    call raises the [KeyError] of the failed template lookup, before any
    request is made and outside the [try]: it returns no string, whatever
    the service would have answered. *)
Theorem unknown_persona_raises (self : GeminiProcessor) (text persona : string)
    (w : World) :
  persona <> "expert" -> persona <> "beginner" ->
  generate_review generate_content self text persona w = (Raised (KeyError persona), w)
  /\ (forall s : string,
        fst (generate_review generate_content self text persona w) <> Returned s).
Proof.
  intros He Hb.
  assert (H : generate_review generate_content self text persona w
              = (Raised (KeyError persona), w)).
  { unfold generate_review, bind, getitem, raise.
    rewrite (prompts_other persona He Hb). reflexivity. }
  split; [exact H|]. intros s. rewrite H. discriminate.
Qed.

(** C3. When the request to the generative-text service raises an error
    (an instance of [Exception]), [generate_review] does not raise: it
    returns the string made of the fixed marker "Error generation review: "
    followed by the text of the error.  The value is an ordinary returned
    string, non-empty, which starts with the marker. *)
Theorem generation_error_as_text (self : GeminiProcessor)
    (text persona prompt : string) (w : World) (e : foreign_exn) :
  prompts !! persona = Some prompt ->
  generate_content (trace w) (model_name self) (full_prompt_for prompt text)
    (genai.mkGenerationConfig (temperature_for persona)) = Raised e ->
  isinstance_Exception e = true ->
  exists s : string,
    fst (generate_review generate_content self text persona w) = Returned s
    /\ s = "Error generation review: " +:+ str e
    /\ String.prefix "Error generation review: " s = true
    /\ s <> EmptyString.
Proof.
  intros Hp Hg He.
  exists ("Error generation review: " +:+ str e).
  split; [|split; [reflexivity | split; [apply prefix_append | discriminate]]].
  unfold generate_review, bind, getitem, try_except_Exception,
    model_generate_content, ret.
  rewrite Hp. cbn. rewrite Hg. cbn. rewrite He. reflexivity.
Qed.

(** The same marker comes back when the response arrives but reading its
    text raises. *)
Lemma unreadable_response_as_text (self : GeminiProcessor)
    (text persona prompt : string) (w : World) (e : foreign_exn) :
  prompts !! persona = Some prompt ->
  generate_content (trace w) (model_name self) (full_prompt_for prompt text)
    (genai.mkGenerationConfig (temperature_for persona))
    = Returned (genai.mkResponse (Raised e)) ->
  isinstance_Exception e = true ->
  fst (generate_review generate_content self text persona w)
    = Returned ("Error generation review: " +:+ str e).
Proof.
  intros Hp Hg He.
  unfold generate_review, bind, getitem, try_except_Exception,
    model_generate_content, response_text, ret, raise.
  rewrite Hp. cbn. rewrite Hg. cbn. rewrite He. reflexivity.
Qed.

(** A successful answer is returned as it is: nothing but its text tells
    a review from an error report. *)
Lemma generate_review_success (self : GeminiProcessor)
    (text persona prompt answer : string) (w : World) :
  prompts !! persona = Some prompt ->
  generate_content (trace w) (model_name self) (full_prompt_for prompt text)
    (genai.mkGenerationConfig (temperature_for persona))
    = Returned (genai.mkResponse (Returned answer)) ->
  fst (generate_review generate_content self text persona w) = Returned answer.
Proof.
  intros Hp Hg.
  unfold generate_review, bind, getitem, try_except_Exception,
    model_generate_content, response_text, ret.
  rewrite Hp. cbn. rewrite Hg. reflexivity.
Qed.

End Review.

Lemma unknown_persona_raises_witness :
  "novice" <> "expert" /\ "novice" <> "beginner"
  /\ generate_review sample.answers sample.processor "We study planning." "novice" sample.w0
      = (Raised (KeyError "novice"), sample.w0).
Proof.
  split; [discriminate|]. split; [discriminate|].
  apply (unknown_persona_raises sample.answers sample.processor
           "We study planning." "novice" sample.w0); discriminate.
Defined.

Lemma generation_error_as_text_witness :
  exists s : string,
    fst (generate_review sample.refuses sample.processor "We study planning."
           "beginner" sample.w0) = Returned s
    /\ s = "Error generation review: 429 quota exceeded"
    /\ String.prefix "Error generation review: " s = true
    /\ s <> EmptyString.
Proof.
  apply (generation_error_as_text sample.refuses sample.processor
           "We study planning." "beginner" beginner_prompt sample.w0
           (ForeignExn true "429 quota exceeded")).
  - vm_compute. reflexivity.
  - reflexivity.
  - reflexivity.
Defined.

(** ** Strings and dates *)

Lemma digit_value_digit (n : Z) : digit_value (digit n) = Some (n mod 10)%Z.
Proof.
  unfold digit_value, digit.
  pose proof (Z.mod_pos_bound n 10 ltac:(lia)) as Hb.
  rewrite N_ascii_embedding by lia.
  rewrite Z2N.id by lia.
  replace ((48 <=? 48 + n mod 10)%Z && (48 + n mod 10 <=? 57)%Z) with true
    by (symmetry; apply andb_true_intro; split; apply Z.leb_le; lia).
  f_equal. lia.
Qed.

Lemma two_digits_pad (n : Z) :
  two_digits (digit (n / 10)) (digit n) = Some (n mod 100)%Z.
Proof.
  unfold two_digits. rewrite !digit_value_digit. f_equal.
  Z.div_mod_to_equations. lia.
Qed.

Lemma parse_strftime (d : datetime) :
  (0 <= year d <= 9999)%Z -> (0 <= month d <= 99)%Z -> (0 <= day d <= 99)%Z ->
  parse_Ymd (strftime_Ymd d) = Some (year d, month d, day d).
Proof.
  intros Hy Hm Hd. unfold strftime_Ymd, pad4, pad2.
  cbv [String.append parse_Ymd].
  change (Ascii.eqb "-" "-") with true. cbv [andb].
  replace (year d / 1000)%Z with (year d / 100 / 10)%Z
    by (rewrite Z.div_div by lia; reflexivity).
  rewrite (two_digits_pad (year d / 100)), !two_digits_pad.
  f_equal. f_equal; [f_equal|]; Z.div_mod_to_equations; lia.
Qed.

Lemma strftime_length (d : datetime) : String.length (strftime_Ymd d) = 10%nat.
Proof. reflexivity. Qed.


Lemma string_app_assoc (a b c : string) : (a +:+ b) +:+ c = a +:+ (b +:+ c).
Proof.
  induction a as [|x a IH]; [reflexivity|].
  change (String x ((a +:+ b) +:+ c) = String x (a +:+ (b +:+ c))).
  f_equal. exact IH.
Qed.

Lemma join_fold_started (sep : string) (items : list string) (acc : string) :
  snd (fold_left
         (fun (st : bool * string) (item : string) =>
            let '(first, res) := st in
            (false, if first then item else res +:+ sep +:+ item))
         items (false, acc))
  = fold_left (join_step sep) items acc.
Proof.
  revert acc. induction items as [|x items IH]; intros acc; [reflexivity|].
  cbn [fold_left]. apply IH.
Qed.

Lemma join_step_shift (sep : string) (items : list string) (a b : string) :
  fold_left (join_step sep) items (a +:+ b) = a +:+ fold_left (join_step sep) items b.
Proof.
  revert b. induction items as [|x items IH]; intros b; [reflexivity|].
  cbn [fold_left].
  change (join_step sep (a +:+ b) x) with ((a +:+ b) +:+ sep +:+ x).
  rewrite string_app_assoc. apply IH.
Qed.

Lemma comma_join_fold (n : string) (rest : list string) :
  comma_join (n :: rest) = fold_left (join_step ", ") rest n.
Proof.
  revert n. induction rest as [|m rest IH]; intros n; [reflexivity|].
  change (comma_join (n :: m :: rest)) with (n +:+ ", " +:+ comma_join (m :: rest)).
  rewrite IH. cbn [fold_left].
  change (join_step ", " n m) with (n +:+ ", " +:+ m).
  rewrite !join_step_shift. reflexivity.
Qed.

Lemma join_comma_join (names : list string) : join ", " names = comma_join names.
Proof.
  destruct names as [|n rest]; [reflexivity|].
  rewrite comma_join_fold. unfold join. cbn [fold_left].
  apply join_fold_started.
Qed.

(** ** Orders on dates *)

Lemma lex_leb_prefix (a b a' b' : list Z) :
  length a = length b ->
  lex_leb (a ++ a') (b ++ b') = true -> lex_leb a b = true.
Proof.
  revert b. induction a as [|x a IH]; intros [|y b] Hlen H; try discriminate.
  - reflexivity.
  - cbn in H |- *. injection Hlen as Hlen.
    destruct (x <? y)%Z; [reflexivity|].
    destruct (x =? y)%Z; [|discriminate]. cbn in H |- *. exact (IH b Hlen H).
Qed.

Lemma datetime_leb_date (a b : datetime) :
  datetime_leb a b = true ->
  date_leb (year a, month a, day a) (year b, month b, day b) = true.
Proof.
  unfold datetime_leb, date_leb. intros H.
  apply (lex_leb_prefix [year a; month a; day a] [year b; month b; day b]
           [hour a; minute a; second a] [hour b; minute b; second b]);
    [reflexivity | exact H].
Qed.

Lemma valid_ranges (d : datetime) :
  valid d = true ->
  (0 <= year d <= 9999)%Z /\ (0 <= month d <= 99)%Z /\ (0 <= day d <= 99)%Z.
Proof.
  unfold valid. rewrite !andb_true_iff, !Z.leb_le, !Z.ltb_lt.
  intros [[[[[[[[[[[H1 H2] H3] H4] H5] H6] _] _] _] _] _] _].
  assert (days_in_month (year d) (month d) <= 31)%Z.
  { unfold days_in_month.
    destruct (month d =? 2)%Z; [destruct (is_leap (year d)); lia|].
    destruct ((month d =? 4) || (month d =? 6) || (month d =? 9) || (month d =? 11))%Z; lia. }
  lia.
Qed.

Lemma parse_published (r : arxiv.Result) :
  well_dated r = true ->
  parse_Ymd (published (paper_of r)) =
    Some (year (arxiv.published r), month (arxiv.published r), day (arxiv.published r)).
Proof.
  intros Hv. apply andb_true_iff in Hv as [Hv _].
  destruct (valid_ranges _ Hv) as (Hy & Hm & Hd).
  apply parse_strftime; assumption.
Qed.

Lemma descending_papers (rs : list arxiv.Result) :
  Forall (fun r => well_dated r = true) rs ->
  descending datetime_leb (map arxiv.published rs) = true ->
  descending published_leb (map paper_of rs) = true.
Proof.
  induction rs as [|a rs IH]; [reflexivity|].
  intros Hv Hs. destruct rs as [|b rs]; [reflexivity|].
  inversion Hv as [|? ? Ha Hv']; subst.
  inversion Hv' as [|? ? Hb _]; subst.
  cbn [map descending] in Hs |- *.
  apply andb_true_iff in Hs as [Hab Hs].
  apply andb_true_iff. split.
  - unfold published_leb. rewrite (parse_published b Hb), (parse_published a Ha).
    apply datetime_leb_date. exact Hab.
  - apply IH; assumption.
Qed.

(** ** The search client *)

Section Search.

Variable client_results : list event -> arxiv.Search -> arxiv.results_iter.

Lemma for_results_spec (it : arxiv.results_iter) (papers : list Paper) (w : World) :
  for_results it papers w =
    match thrown it with
    | None => (Returned (papers ++ map paper_of (yielded it)), w)
    | Some e => (Raised e, w)
    end.
Proof.
  revert papers. induction it as [|r rest IH|e]; intros papers; cbn.
  - unfold ret. rewrite app_nil_r. reflexivity.
  - rewrite IH. destruct (thrown rest); [reflexivity|].
    rewrite <- app_assoc. reflexivity.
  - reflexivity.
Qed.

(** The loop consumes what is yielded and carries it along. *)
Lemma for_results_yield_all (rs : list arxiv.Result) (tail : arxiv.results_iter)
    (papers : list Paper) (w : World) :
  for_results (yield_all rs tail) papers w
  = for_results tail (papers ++ map paper_of rs) w.
Proof.
  revert papers. induction rs as [|r rs IH]; intros papers; cbn.
  - rewrite app_nil_r. reflexivity.
  - rewrite IH, <- app_assoc. reflexivity.
Qed.

Lemma thrown_yield_all (rs : list arxiv.Result) (tail : arxiv.results_iter) :
  thrown (yield_all rs tail) = thrown tail.
Proof. induction rs as [|r rs IH]; [reflexivity | exact IH]. Qed.

(** The three ways the function under the decorator can end. *)
Lemma search_papers_body_spec (_self : ArxivFetcher) (query : string)
    (max_results : Z) (w : World) :
  search_papers_body client_results _self query max_results w =
    let search := search_of query max_results in
    let w1 := log (ArxivRequest search) w in
    match thrown (client_results (trace w) search) with
    | None =>
        (Returned (map paper_of (yielded (client_results (trace w) search))), w1)
    | Some e =>
        if isinstance_Exception e
        then (Returned [], log (Show (st.error ("Arxiv API Error: " +:+ str e))) w1)
        else (Raised (Foreign e), w1)
    end.
Proof.
  cbv zeta.
  unfold search_papers_body, try_except_Exception, bind, results.
  rewrite for_results_spec.
  destruct (thrown _) as [e|]; [|reflexivity].
  destruct (isinstance_Exception e); reflexivity.
Qed.

(** The decorator: served from the table, or computed and stored. *)
Lemma cache_data_hit (ttl : Z)
    (func : ArxivFetcher -> string -> Z -> M exn (list Paper))
    (_self : ArxivFetcher) (query : string) (max_results : Z) (w : World)
    (value : list Paper) :
  fresh_value ttl w (query, max_results) = Some value ->
  cache_data ttl func _self query max_results w = (Returned value, w).
Proof.
  unfold fresh_value, cache_data. intros H.
  destruct (memo w !! (query, max_results)) as [[stored_at v]|]; [|discriminate].
  destruct (now w <? stored_at + ttl)%Z; [|discriminate].
  injection H as ->. reflexivity.
Qed.

Lemma cache_data_miss (ttl : Z)
    (func : ArxivFetcher -> string -> Z -> M exn (list Paper))
    (_self : ArxivFetcher) (query : string) (max_results : Z) (w : World) :
  fresh_value ttl w (query, max_results) = None ->
  cache_data ttl func _self query max_results w =
    match func _self query max_results w with
    | (Returned value, w') =>
        (Returned value, remember (query, max_results) value w')
    | (Raised e, w') => (Raised e, w')
    end.
Proof.
  unfold fresh_value, cache_data. intros H.
  destruct (memo w !! (query, max_results)) as [[stored_at v]|]; [|reflexivity].
  destruct (now w <? stored_at + ttl)%Z; [discriminate|reflexivity].
Qed.

(** C2. When the provider raises an error (an instance of [Exception])
    during the search, the function under the decorator shows the message
    "Arxiv API Error: ..." and returns the empty list; it does not raise.
    So does the decorated [search_papers] whenever it goes to the provider;
    when it is served from the memo table the provider is not asked at
    all, and it returns as well. *)
Theorem search_error_gives_empty (_self : ArxivFetcher) (query : string)
    (max_results : Z) (w : World) (e : foreign_exn) :
  thrown (client_results (trace w) (search_of query max_results)) = Some e ->
  isinstance_Exception e = true ->
  let w_err :=
    log (Show (st.error ("Arxiv API Error: " +:+ str e)))
      (log (ArxivRequest (search_of query max_results)) w) in
  search_papers_body client_results _self query max_results w = (Returned [], w_err)
  /\ match fresh_value 3600 w (query, max_results) with
     | None =>
         search_papers client_results _self query max_results w
         = (Returned [], remember (query, max_results) [] w_err)
     | Some value =>
         search_papers client_results _self query max_results w
         = (Returned value, w)
     end.
Proof.
  intros Ht He w_err.
  assert (Hb : search_papers_body client_results _self query max_results w
               = (Returned [], w_err)).
  { rewrite search_papers_body_spec. cbv zeta. rewrite Ht, He. reflexivity. }
  split; [exact Hb|].
  destruct (fresh_value 3600 w (query, max_results)) as [value|] eqn:Hf.
  - apply cache_data_hit. exact Hf.
  - unfold search_papers. rewrite (cache_data_miss _ _ _ _ _ _ Hf), Hb.
    reflexivity.
Qed.

(** C10. When the provider yields some results and then raises an error,
    the loop had built one record per result by then, and the call still
    returns the empty list: the records are dropped, none reaches the
    caller, and the memo table keeps the empty list too. *)
Theorem partial_results_discarded (_self : ArxivFetcher) (query : string)
    (max_results : Z) (w : World) (rs : list arxiv.Result) (e : foreign_exn) :
  client_results (trace w) (search_of query max_results)
    = yield_all rs (arxiv.Throw e) ->
  isinstance_Exception e = true ->
  (forall w', for_results (yield_all rs (arxiv.Throw e)) [] w'
              = for_results (arxiv.Throw e) (map paper_of rs) w')
  /\ fst (search_papers_body client_results _self query max_results w) = Returned []
  /\ (fresh_value 3600 w (query, max_results) = None ->
      fst (search_papers client_results _self query max_results w) = Returned []
      /\ memo (snd (search_papers client_results _self query max_results w))
           !! (query, max_results) = Some (now w, [])).
Proof.
  intros Hit He.
  assert (Hb : search_papers_body client_results _self query max_results w
               = (Returned [],
                  log (Show (st.error ("Arxiv API Error: " +:+ str e)))
                    (log (ArxivRequest (search_of query max_results)) w))).
  { rewrite search_papers_body_spec. cbv zeta.
    rewrite Hit, thrown_yield_all. cbn [thrown]. rewrite He. reflexivity. }
  split; [|split].
  - intros w'. apply for_results_yield_all.
  - rewrite Hb. reflexivity.
  - intros Hf. unfold search_papers.
    rewrite (cache_data_miss _ _ _ _ _ _ Hf), Hb. cbn [fst snd].
    split; [reflexivity|]. unfold remember. cbn [memo now log].
    apply lookup_insert_eq.
Qed.

(** The records of a complete answer, one per result and in its order. *)
Lemma paper_of_well_formed (r : arxiv.Result) :
  well_dated r = true -> well_formed_record r (paper_of r).
Proof.
  intros Hv. unfold well_formed_record. split; [|split].
  - apply join_comma_join.
  - apply parse_published. exact Hv.
  - reflexivity.
Qed.

Lemma papers_well_formed (rs : list arxiv.Result) :
  Forall (fun r => well_dated r = true) rs ->
  Forall2 well_formed_record rs (map paper_of rs).
Proof.
  induction 1 as [|r rs Hr _ IH]; cbn; constructor.
  - apply paper_of_well_formed. exact Hr.
  - exact IH.
Qed.

Lemma Forall2_source {A B} (R : A -> B -> Prop) (xs : list A) (ys : list B) :
  Forall2 R xs ys -> Forall (fun y => exists x, In x xs /\ R x y) ys.
Proof.
  induction 1 as [|x y xs ys Hxy _ IH]; constructor.
  - exists x. split; [left; reflexivity | exact Hxy].
  - eapply Forall_impl; [exact IH|].
    intros b (a & Hin & Hab). exists a. split; [right; exact Hin | exact Hab].
Qed.

(** What the function under the decorator returns, as a list. *)
Lemma search_papers_body_returned (_self : ArxivFetcher) (query : string)
    (max_results : Z) (w : World) :
  returned (fst (search_papers_body client_results _self query max_results w)) =
    match thrown (client_results (trace w) (search_of query max_results)) with
    | None => map paper_of (yielded (client_results (trace w) (search_of query max_results)))
    | Some _ => []
    end.
Proof.
  rewrite search_papers_body_spec. cbv zeta.
  destruct (thrown _) as [e|]; [|reflexivity].
  destruct (isinstance_Exception e); reflexivity.
Qed.

(** C8. Every record in the list [search_papers] builds comes from one of
    the provider's results, with [authors] the comma-join of the names of
    its author list and [published] its publication date spelt YYYY-MM-DD
    (ten characters that read back as the year, month and day, the time of
    day dropped).  When the provider's answer is complete the records
    match the results one for one, in order. *)
Theorem paper_record_invariants (_self : ArxivFetcher) (query : string)
    (max_results : Z) (w : World) :
  let it := client_results (trace w) (search_of query max_results) in
  let papers :=
    returned (fst (search_papers_body client_results _self query max_results w)) in
  Forall (fun r => well_dated r = true) (yielded it) ->
  Forall (fun p => exists r, In r (yielded it) /\ well_formed_record r p) papers
  /\ (thrown it = None -> Forall2 well_formed_record (yielded it) papers).
Proof.
  intros it papers Hv. subst papers. rewrite search_papers_body_returned.
  fold it. destruct (thrown it) as [e|].
  - split; [constructor | discriminate].
  - pose proof (papers_well_formed _ Hv) as H2.
    split; [apply Forall2_source; exact H2 | intros _; exact H2].
Qed.

(** C5. The search handed to the provider asks for the order by submission
    date, and the list is returned in the order the provider yields it,
    without sorting of its own.  So, the provider yielding its results
    most recent first, every sequence [search_papers] returns is
    non-increasing in publication date: the one computed now, and the ones
    kept in the memo table. *)
Theorem results_most_recent_first (_self : ArxivFetcher) (query : string)
    (max_results : Z) (w : World) :
  let it := client_results (trace w) (search_of query max_results) in
  Forall (fun r => well_dated r = true) (yielded it) ->
  descending datetime_leb (map arxiv.published (yielded it)) = true ->
  arxiv.sort_by (search_of query max_results) = arxiv.SubmittedDate
  /\ (thrown it = None ->
      returned (fst (search_papers_body client_results _self query max_results w))
      = map paper_of (yielded it))
  /\ descending published_leb
       (returned (fst (search_papers_body client_results _self query max_results w)))
     = true
  /\ (memo_descending w ->
      descending published_leb
        (returned (fst (search_papers client_results _self query max_results w)))
      = true
      /\ memo_descending (snd (search_papers client_results _self query max_results w))).
Proof.
  intros it Hv Hs.
  assert (Hbody : descending published_leb
            (returned (fst (search_papers_body client_results _self query max_results w)))
          = true).
  { rewrite search_papers_body_returned. fold it.
    destruct (thrown it); [reflexivity|]. apply descending_papers; assumption. }
  split; [reflexivity|]. split; [|split; [exact Hbody|]].
  - intros Hn. rewrite search_papers_body_returned. fold it. rewrite Hn. reflexivity.
  - intros Hm. unfold search_papers.
    destruct (fresh_value 3600 w (query, max_results)) as [value|] eqn:Hf.
    + rewrite (cache_data_hit _ _ _ _ _ _ _ Hf). cbn [fst snd returned].
      split; [|exact Hm].
      unfold fresh_value in Hf.
      destruct (memo w !! (query, max_results)) as [[stored_at v]|] eqn:Hl;
        [|discriminate].
      destruct (now w <? stored_at + 3600)%Z; [|discriminate].
      injection Hf as ->. exact (Hm _ _ _ Hl).
    + rewrite (cache_data_miss _ _ _ _ _ _ Hf).
      destruct (search_papers_body client_results _self query max_results w)
        as [[value|e] w'] eqn:Hb; cbn [fst snd returned] in *.
      * split; [exact Hbody|].
        assert (Hw' : memo w' = memo w).
        { pose proof (search_papers_body_spec _self query max_results w) as Hspec.
          rewrite Hb in Hspec. cbv zeta in Hspec.
          destruct (thrown _) as [e|];
            [destruct (isinstance_Exception e)|];
            injection Hspec as _ ->; reflexivity. }
        intros key stored_at v. unfold remember. cbn [memo].
        rewrite lookup_insert. case_decide as Hk.
        -- intros [= _ <-]. exact Hbody.
        -- rewrite Hw'. apply Hm.
      * split; [reflexivity|].
        assert (Hw' : memo w' = memo w).
        { pose proof (search_papers_body_spec _self query max_results w) as Hspec.
          rewrite Hb in Hspec. cbv zeta in Hspec.
          destruct (thrown _) as [e'|];
            [destruct (isinstance_Exception e')|];
            injection Hspec as _ ->; reflexivity. }
        intros key stored_at v. rewrite Hw'. apply Hm.
Qed.

(** The function under the decorator touches neither clock nor table. *)
Lemma search_papers_body_frame (_self : ArxivFetcher) (query : string)
    (max_results : Z) (w : World) :
  let w' := snd (search_papers_body client_results _self query max_results w) in
  now w' = now w /\ memo w' = memo w.
Proof.
  rewrite search_papers_body_spec. cbv zeta.
  destruct (thrown _) as [e|]; [destruct (isinstance_Exception e)|];
    split; reflexivity.
Qed.

Lemma search_papers_now (_self : ArxivFetcher) (query : string)
    (max_results : Z) (w : World) :
  now (snd (search_papers client_results _self query max_results w)) = now w.
Proof.
  unfold search_papers.
  destruct (fresh_value 3600 w (query, max_results)) as [value|] eqn:Hf.
  - rewrite (cache_data_hit _ _ _ _ _ _ _ Hf). reflexivity.
  - rewrite (cache_data_miss _ _ _ _ _ _ Hf).
    pose proof (search_papers_body_frame _self query max_results w) as [Hn _].
    destruct (search_papers_body client_results _self query max_results w)
      as [[value|e] w']; exact Hn.
Qed.

(** A call leaves the entries of the other keys alone. *)
Lemma search_papers_memo_other (_self : ArxivFetcher) (query : string)
    (max_results : Z) (w : World) (key : string * Z) :
  key <> (query, max_results) ->
  memo (snd (search_papers client_results _self query max_results w)) !! key
  = memo w !! key.
Proof.
  intros Hk. unfold search_papers.
  destruct (fresh_value 3600 w (query, max_results)) as [value|] eqn:Hf.
  - rewrite (cache_data_hit _ _ _ _ _ _ _ Hf). reflexivity.
  - rewrite (cache_data_miss _ _ _ _ _ _ Hf).
    pose proof (search_papers_body_frame _self query max_results w) as [_ Hm].
    destruct (search_papers_body client_results _self query max_results w)
      as [[value|e] w']; cbn [snd] in *.
    + unfold remember. cbn [memo]. rewrite lookup_insert_ne by congruence.
      rewrite Hm. reflexivity.
    + rewrite Hm. reflexivity.
Qed.

Lemma calls_later_now (cs : list (Z * string * Z)) (w : World) :
  Forall (Z.le 0) (waits cs) -> (now w <= now (calls_later client_results cs w))%Z.
Proof.
  revert w. induction cs as [|[[dt q] n] cs IH]; intros w Hw; [cbn; lia|].
  inversion Hw as [|? ? Hdt Hw']; subst.
  change (calls_later client_results (((dt, q), n) :: cs) w)
    with (calls_later client_results cs (call_later client_results w (dt, q, n))).
  specialize (IH (call_later client_results w (dt, q, n)) Hw').
  unfold call_later in IH at 1. rewrite search_papers_now in IH.
  cbn [now advance fst] in *. lia.
Qed.

(** An entry stays as it is for as long as it is fresh, whatever other
    searches are made meanwhile. *)
Lemma calls_later_keep (cs : list (Z * string * Z)) (w : World)
    (key : string * Z) (stored_at : Z) (value : list Paper) :
  memo w !! key = Some (stored_at, value) ->
  Forall (Z.le 0) (waits cs) ->
  (now (calls_later client_results cs w) < stored_at + 3600)%Z ->
  memo (calls_later client_results cs w) !! key = Some (stored_at, value).
Proof.
  revert w. induction cs as [|[[dt q] n] cs IH]; intros w Hm Hw Hlt; [exact Hm|].
  inversion Hw as [|? ? Hdt Hw']; subst.
  change (calls_later client_results (((dt, q), n) :: cs) w)
    with (calls_later client_results cs (call_later client_results w (dt, q, n))) in *.
  apply IH; [|exact Hw'|exact Hlt].
  pose proof (calls_later_now cs (call_later client_results w (dt, q, n)) Hw') as Hmono.
  unfold call_later in Hmono at 1. rewrite search_papers_now in Hmono.
  cbn [now advance] in Hmono.
  unfold call_later.
  destruct (decide (key = (q, n))) as [->|Hne].
  - assert (Hf : fresh_value 3600 (advance dt w) (q, n) = Some value).
    { unfold fresh_value. cbn [memo now advance]. rewrite Hm.
      replace (now w + dt <? stored_at + 3600)%Z with true
        by (symmetry; apply Z.ltb_lt; lia). reflexivity. }
    unfold search_papers. rewrite (cache_data_hit _ _ _ _ _ _ _ Hf). exact Hm.
  - rewrite search_papers_memo_other by exact Hne. exact Hm.
Qed.

(** C4. A call of [search_papers] that returns leaves its result in the
    memo table, under the pair (query, limit), with the time it was
    fetched; it made one provider request if it had to fetch, none if it
    was served from the table.  Any later call with the same pair, made
    before that entry is one hour old, returns the identical sequence and
    changes nothing: no provider request.  Searches made in between do
    not matter. *)
Theorem memoised_within_window (_self : ArxivFetcher) (query : string)
    (max_results : Z) (w w1 : World) (value : list Paper) :
  search_papers client_results _self query max_results w = (Returned value, w1) ->
  exists stored_at : Z,
    memo w1 !! (query, max_results) = Some (stored_at, value)
    /\ (now w < stored_at + 3600)%Z
    /\ (fresh_value 3600 w (query, max_results) = None -> stored_at = now w)
    /\ arxiv_requests (since w w1) =
         match fresh_value 3600 w (query, max_results) with
         | None => [search_of query max_results]
         | Some _ => []
         end
    /\ forall (cs : list (Z * string * Z)) (dt : Z) (self' : ArxivFetcher),
         Forall (Z.le 0) (waits cs) -> (0 <= dt)%Z ->
         let w2 := advance dt (calls_later client_results cs w1) in
         (now w2 < stored_at + 3600)%Z ->
         search_papers client_results self' query max_results w2
         = (Returned value, w2).
Proof.
  intros Hcall.
  assert (Hlater : forall stored_at : Z,
    memo w1 !! (query, max_results) = Some (stored_at, value) ->
    forall (cs : list (Z * string * Z)) (dt : Z) (self' : ArxivFetcher),
      Forall (Z.le 0) (waits cs) -> (0 <= dt)%Z ->
      let w2 := advance dt (calls_later client_results cs w1) in
      (now w2 < stored_at + 3600)%Z ->
      search_papers client_results self' query max_results w2 = (Returned value, w2)).
  { intros stored_at Hm cs dt self' Hw Hdt w2 Hlt. subst w2.
    cbn [now advance] in Hlt.
    apply cache_data_hit. unfold fresh_value. cbn [memo now advance].
    rewrite (calls_later_keep cs w1 _ _ _ Hm Hw) by lia.
    replace (now (calls_later client_results cs w1) + dt <? stored_at + 3600)%Z
      with true by (symmetry; apply Z.ltb_lt; lia).
    reflexivity. }
  unfold search_papers in Hcall.
  destruct (fresh_value 3600 w (query, max_results)) as [v|] eqn:Hf.
  - rewrite (cache_data_hit _ _ _ _ _ _ _ Hf) in Hcall.
    injection Hcall as Hv Hw1. subst v w1.
    unfold fresh_value in Hf.
    destruct (memo w !! (query, max_results)) as [[stored_at v']|] eqn:Hl;
      [|discriminate].
    destruct (now w <? stored_at + 3600)%Z eqn:Hlt; [|discriminate].
    injection Hf as ->. apply Z.ltb_lt in Hlt.
    exists stored_at. split; [reflexivity|]. split; [exact Hlt|].
    split; [discriminate|]. split; [rewrite since_refl; reflexivity|].
    apply Hlater. reflexivity.
  - rewrite (cache_data_miss _ _ _ _ _ _ Hf) in Hcall.
    pose proof (search_papers_body_spec _self query max_results w) as Hspec.
    cbv zeta in Hspec.
    destruct (search_papers_body client_results _self query max_results w)
      as [[v|e] w'] eqn:Hb; [|discriminate].
    injection Hcall as Hv Hw1. subst v w1.
    assert (Hw' : trace w' = trace w ++ [ArxivRequest (search_of query max_results)]
                  \/ exists msg, trace w' = trace w
                        ++ [ArxivRequest (search_of query max_results); Show (st.error msg)]).
    { destruct (thrown _) as [e|].
      - destruct (isinstance_Exception e); [|discriminate].
        injection Hspec as _ ->. right. eexists. cbn [trace log].
        rewrite <- app_assoc. reflexivity.
      - injection Hspec as _ ->. left. reflexivity. }
    pose proof (search_papers_body_frame _self query max_results w) as [Hn _].
    rewrite Hb in Hn. cbn [snd] in Hn.
    exists (now w).
    assert (Hm : memo (remember (query, max_results) value w')
                   !! (query, max_results) = Some (now w, value)).
    { unfold remember. cbn [memo]. rewrite Hn. apply lookup_insert_eq. }
    split; [exact Hm|]. split; [lia|]. split; [reflexivity|].
    split; [|apply Hlater; exact Hm].
    destruct Hw' as [Ht|[msg Ht]];
      rewrite (since_extend w (remember (query, max_results) value w') _ Ht);
      reflexivity.
Qed.

End Search.

Lemma search_error_gives_empty_witness :
  let w_err :=
    log (Show (st.error "Arxiv API Error: HTTP 503"))
      (log (ArxivRequest (search_of "LLM Agents" 3)) sample.w0) in
  search_papers_body sample.broken_page sample.fetcher "LLM Agents" 3 sample.w0
  = (Returned [], w_err)
  /\ search_papers sample.broken_page sample.fetcher "LLM Agents" 3 sample.w0
     = (Returned [], remember ("LLM Agents", 3%Z) [] w_err).
Proof.
  apply (search_error_gives_empty sample.broken_page sample.fetcher
           "LLM Agents" 3 sample.w0 sample.timeout); reflexivity.
Defined.

Lemma partial_results_discarded_witness :
  fst (search_papers_body sample.broken_page sample.fetcher "LLM Agents" 3 sample.w0)
  = Returned []
  /\ yielded (sample.broken_page [] (search_of "LLM Agents" 3)) = [sample.r1].
Proof.
  split; [|reflexivity].
  destruct (partial_results_discarded sample.broken_page sample.fetcher
              "LLM Agents" 3 sample.w0 [sample.r1] sample.timeout
              eq_refl eq_refl) as (_ & H & _).
  exact H.
Defined.

Lemma paper_record_invariants_witness :
  Forall2 well_formed_record [sample.r1; sample.r2]
    (returned (fst (search_papers_body sample.two_results sample.fetcher
                      "LLM Agents" 3 sample.w0))).
Proof.
  assert (Hv : Forall (fun r => well_dated r = true)
                 [sample.r1; sample.r2]) by (repeat constructor).
  destruct (paper_record_invariants sample.two_results sample.fetcher
              "LLM Agents" 3 sample.w0 Hv) as [_ H].
  exact (H eq_refl).
Defined.

Lemma results_most_recent_first_witness :
  descending published_leb
    (returned (fst (search_papers_body sample.two_results sample.fetcher
                      "LLM Agents" 3 sample.w0))) = true.
Proof.
  assert (Hv : Forall (fun r => well_dated r = true)
                 [sample.r1; sample.r2]) by (repeat constructor).
  destruct (results_most_recent_first sample.two_results sample.fetcher
              "LLM Agents" 3 sample.w0 Hv eq_refl) as (_ & _ & H & _).
  exact H.
Defined.

Lemma memoised_within_window_witness :
  let value := map paper_of [sample.r1; sample.r2] in
  let w1 := snd (search_papers sample.two_results sample.fetcher
                   "LLM Agents" 3 sample.w0) in
  let w2 := advance 600 (calls_later sample.two_results [(60%Z, "RAG", 5%Z)] w1) in
  search_papers sample.two_results sample.fetcher "LLM Agents" 3 sample.w0
  = (Returned value, w1)
  /\ arxiv_requests (since sample.w0 w1) = [search_of "LLM Agents" 3]
  /\ search_papers sample.two_results sample.fetcher "LLM Agents" 3 w2
     = (Returned value, w2).
Proof.
  intros value w1 w2.
  assert (H : search_papers sample.two_results sample.fetcher "LLM Agents" 3 sample.w0
              = (Returned value, w1)) by (vm_compute; reflexivity).
  split; [exact H|].
  destruct (memoised_within_window sample.two_results sample.fetcher
              "LLM Agents" 3 sample.w0 w1 value H)
    as (stored_at & Hm & _ & Hat & Hreq & Hlater).
  split; [exact Hreq|].
  rewrite (Hat eq_refl) in Hlater.
  apply (Hlater [(60%Z, "RAG", 5%Z)] 600%Z sample.fetcher).
  - repeat constructor; discriminate.
  - discriminate.
  - reflexivity.
Defined.

(** ** The page *)

Lemma logs_nil (w : World) : logs [] w = w.
Proof. destruct w. unfold logs. cbn. rewrite app_nil_r. reflexivity. Qed.

Lemma log_logs (e : event) (w : World) : log e w = logs [e] w.
Proof. reflexivity. Qed.

Lemma logs_logs (a b : list event) (w : World) : logs b (logs a w) = logs (a ++ b) w.
Proof. unfold logs. cbn. rewrite app_assoc. reflexivity. Qed.

Lemma since_logs (evs : list event) (w : World) : since w (logs evs w) = evs.
Proof. apply since_extend. reflexivity. Qed.

Lemma arxiv_requests_app (a b : list event) :
  arxiv_requests (a ++ b) = arxiv_requests a ++ arxiv_requests b.
Proof. apply flat_map_app. Qed.

Lemma gemini_requests_app (a b : list event) :
  gemini_requests (a ++ b) = gemini_requests a ++ gemini_requests b.
Proof. apply flat_map_app. Qed.

(** Bringing nested [log]s to one [logs]. *)
Ltac flatten_logs :=
  repeat rewrite log_logs; repeat rewrite logs_logs; cbn [app].

Section Page.

Variable client_results : list event -> arxiv.Search -> arxiv.results_iter.
Variable generate_content :
  list event -> string -> string -> genai.GenerationConfig ->
  outcome foreign_exn genai.GenerateContentResponse.

(** With a known persona and ordinary errors, a review is always
    returned, after exactly one request. *)
Lemma generate_review_returns (self : GeminiProcessor) (text persona prompt : string)
    (w : World) :
  service_errors_are_Exceptions generate_content ->
  prompts !! persona = Some prompt ->
  exists review : string,
    generate_review generate_content self text persona w
    = (Returned review,
       log (GeminiRequest (model_name self) (full_prompt_for prompt text)
              (genai.mkGenerationConfig (temperature_for persona))) w).
Proof.
  intros Hok Hp.
  unfold generate_review, bind, getitem, try_except_Exception,
    model_generate_content, response_text, ret, raise.
  rewrite Hp. cbn.
  destruct (generate_content _ _ _ _) as [[[s|e]]|e] eqn:Hg; cbn.
  - eexists. reflexivity.
  - rewrite (Hok _ _ _ _ e (or_intror Hg)). eexists. reflexivity.
  - rewrite (Hok _ _ _ _ e (or_introl Hg)). eexists. reflexivity.
Qed.

Lemma for_papers_cards (processor : GeminiProcessor) (papers : list Paper) :
  service_errors_are_Exceptions generate_content ->
  forall (i : nat) (w : World),
  exists reviews : list (string * string),
    length reviews = length papers
    /\ for_papers generate_content processor i papers w
       = (Returned tt, logs (cards (model_name processor) i papers reviews) w).
Proof.
  intros Hok. induction papers as [|paper rest IH]; intros i w.
  - exists []. split; [reflexivity|]. cbn. rewrite logs_nil. reflexivity.
  - cbn [for_papers]. unfold with_, bind, show, emit.
    match goal with
    | |- context [generate_review _ _ _ "expert" ?w1] =>
        destruct (generate_review_returns processor (summary paper) "expert"
                    expert_prompt w1 Hok prompts_expert) as [re Hre];
        rewrite Hre
    end.
    match goal with
    | |- context [generate_review _ _ _ "beginner" ?w1] =>
        destruct (generate_review_returns processor (summary paper) "beginner"
                    beginner_prompt w1 Hok prompts_beginner) as [rb Hrb];
        rewrite Hrb
    end.
    match goal with
    | |- context [for_papers _ _ _ rest ?w1] =>
        destruct (IH (S i) w1) as (reviews & Hlen & Hrest); rewrite Hrest
    end.
    exists ((re, rb) :: reviews). split; [cbn; rewrite Hlen; reflexivity|].
    f_equal. flatten_logs. reflexivity.
Qed.

(** A search always returns under ordinary errors, asking the provider
    at most once and the generative service never. *)
Lemma search_papers_returns (_self : ArxivFetcher) (query : string)
    (max_results : Z) (w : World) :
  provider_errors_are_Exceptions client_results ->
  exists (papers : list Paper) (evs : list event),
    fst (search_papers client_results _self query max_results w) = Returned papers
    /\ trace (snd (search_papers client_results _self query max_results w))
       = trace w ++ evs
    /\ length (arxiv_requests evs) <= 1
    /\ gemini_requests evs = [].
Proof.
  intros Hok. unfold search_papers.
  destruct (fresh_value 3600 w (query, max_results)) as [value|] eqn:Hf.
  - rewrite (cache_data_hit _ _ _ _ _ _ _ Hf).
    exists value, []. cbn. rewrite app_nil_r.
    repeat split; first [reflexivity | lia].
  - rewrite (cache_data_miss _ _ _ _ _ _ Hf), search_papers_body_spec.
    cbv zeta.
    destruct (thrown _) as [e|] eqn:Ht.
    + rewrite (Hok _ _ _ Ht). eexists [], [_; _]. cbn.
      rewrite <- app_assoc. repeat split; first [reflexivity | lia].
    + eexists _, [_]. cbn. repeat split; first [reflexivity | lia].
Qed.

Lemma cards_requests (model : string) (papers : list Paper) :
  forall (i : nat) (reviews : list (string * string)),
    length reviews = length papers ->
    gemini_requests (cards model i papers reviews)
    = flat_map (requests_due model) papers
    /\ arxiv_requests (cards model i papers reviews) = [].
Proof.
  induction papers as [|paper rest IH]; intros i [|[re rb] reviews] Hlen;
    try discriminate; [split; reflexivity|].
  injection Hlen as Hlen. destruct (IH (S i) reviews Hlen) as [Hg Ha].
  cbn [cards]. rewrite gemini_requests_app, arxiv_requests_app, Hg, Ha.
  split; reflexivity.
Qed.

(** C7. While the credential is the empty string a run shows the page top
    and the instruction to enter a key, and ends there, whether or not
    the button was pressed: no search is made, no review is requested, the
    service is not even configured, and the memo table is left as it was. *)
Theorem empty_credential_blocks (ui : Inputs) (w : World) :
  api_key ui = EmptyString ->
  main client_results generate_content ui w
  = (Returned tt, logs (page_top ++ credential_prompt) w)
  /\ arxiv_requests
       (since w (snd (main client_results generate_content ui w))) = []
  /\ gemini_requests
       (since w (snd (main client_results generate_content ui w))) = []
  /\ ~ In (GenaiConfigure (api_key ui))
         (since w (snd (main client_results generate_content ui w)))
  /\ memo (snd (main client_results generate_content ui w)) = memo w.
Proof.
  intros Hkey.
  assert (H : main client_results generate_content ui w
              = (Returned tt, logs (page_top ++ credential_prompt) w)).
  { unfold main, main_with, with_, bind, show, emit. rewrite Hkey.
    f_equal. flatten_logs. reflexivity. }
  rewrite H. cbn [snd]. rewrite since_logs.
  split; [reflexivity|]. split; [reflexivity|]. split; [reflexivity|].
  split; [|reflexivity].
  cbn. intros Hin.
  repeat (destruct Hin as [Hin|Hin]; [discriminate|]). exact Hin.
Qed.

(** The loop over the records, with the reviews it shows traced back to
    the calls that returned them. *)
Lemma for_papers_reviewed (processor : GeminiProcessor) (papers : list Paper) :
  service_errors_are_Exceptions generate_content ->
  forall (i : nat) (w : World),
  exists reviews : list (string * string),
    length reviews = length papers
    /\ reviews_returned generate_content processor i papers reviews w
    /\ for_papers generate_content processor i papers w
       = (Returned tt, logs (cards (model_name processor) i papers reviews) w).
Proof.
  intros Hok. induction papers as [|paper rest IH]; intros i w.
  - exists []. split; [reflexivity|]. split; [exact I|].
    cbn. rewrite logs_nil. reflexivity.
  - destruct (generate_review_returns processor (summary paper)
                "expert" expert_prompt (logs (before_expert i paper) w)
                Hok prompts_expert) as [re Hre].
    destruct (generate_review_returns processor (summary paper)
                "beginner" beginner_prompt
                (logs (before_beginner (model_name processor) i paper re) w)
                Hok prompts_beginner) as [rb Hrb].
    destruct (IH (S i) (logs (card (model_name processor) i paper re rb) w))
      as (reviews & Hlen & Hret & Hrest).
    exists ((re, rb) :: reviews).
    split; [cbn; rewrite Hlen; reflexivity|]. split.
    + cbn [reviews_returned]. rewrite Hre, Hrb. repeat split. exact Hret.
    + cbn [for_papers]. unfold with_, bind, show, emit.
      flatten_logs.
      change (logs _ w) with (logs (before_expert i paper) w) at 1.
      rewrite Hre. flatten_logs.
      change (logs _ w)
        with (logs (before_beginner (model_name processor) i paper re) w) at 1.
      rewrite Hrb. flatten_logs.
      change (logs _ w)
        with (logs (card (model_name processor) i paper re rb) w) at 1.
      rewrite Hrest. flatten_logs. reflexivity.
Qed.

(** The page from its one call of the search client on, whatever the
    client: the call is made in the spinner, after the opening; what it
    returns is rendered, and what it raises leaves the page. *)
Lemma main_with_after_search
    (search : ArxivFetcher -> string -> Z -> M exn (list Paper))
    (ui : Inputs) (w : World) :
  service_errors_are_Exceptions generate_content ->
  api_key ui <> EmptyString ->
  clicked ui = true ->
  let processor := mkGeminiProcessor "gemini-1.5-flash" in
  let leave := Exit (st.spinner "Fetching papers from Arxiv...") in
  let count (papers : list Paper) :=
    Show (st.success (str_nat (length papers)
                      +:+ " 件の論文が見つかりました。AI分析を開始します...")) in
  match search (mkArxivFetcher tt) (query ui) (max_results ui) (logs (opening ui) w) with
  | (Returned papers, w_s) =>
      exists reviews : list (string * string),
        length reviews = length papers
        /\ reviews_returned generate_content processor 0 papers reviews
             (logs [leave; count papers] w_s)
        /\ main_with generate_content search ui w
           = (Returned tt,
              logs (leave :: results_view "gemini-1.5-flash" papers reviews) w_s)
  | (Raised e, w_s) =>
      main_with generate_content search ui w = (Raised e, logs [leave] w_s)
  end.
Proof.
  intros Hserv Hkey Hclick processor leave count. subst processor leave count.
  unfold main_with, ArxivFetcher_init, GeminiProcessor_init.
  unfold with_, bind, show, emit, ret.
  destruct (api_key ui) as [|a key] eqn:Hk; [congruence|]. rewrite <- Hk.
  rewrite Hclick. flatten_logs.
  change (logs _ w) with (logs (opening ui) w).
  destruct (search (mkArxivFetcher tt) (query ui) (max_results ui)
              (logs (opening ui) w)) as [[papers|e] w_s]; [|reflexivity].
  destruct papers as [|paper rest].
  - exists []. split; [reflexivity|]. split; [exact I|].
    flatten_logs. reflexivity.
  - destruct (for_papers_reviewed (mkGeminiProcessor "gemini-1.5-flash")
                (paper :: rest) Hserv 0
                (logs [ Exit (st.spinner "Fetching papers from Arxiv...");
                        Show (st.success
                                (str_nat (length (paper :: rest))
                                 +:+ " 件の論文が見つかりました。AI分析を開始します...")) ]
                   w_s))
      as (reviews & Hlen & Hret & Hfor).
    exists reviews. split; [exact Hlen|]. split; [exact Hret|].
    flatten_logs. rewrite Hfor. flatten_logs. reflexivity.
Qed.

(** C6. With a credential and the button pressed, under ordinary errors of
    the two services, a run invokes the search client exactly once, in
    the spinner that follows the opening of the page: this holds for any
    search client put in the place of [fetcher.search_papers], and with
    the script's own the provider is asked at most once, and only by that
    call.  Given an empty sequence the run shows the "not found" message
    and ends.  Otherwise it renders the records in order, each as a card
    with title, author/date caption, the abstract in an expander and, side
    by side, the two reviews; each card calls [generate_review] exactly
    twice, one call after the other, with the persona expert and then the
    persona beginner, and its two panels show what these two calls
    returned. *)
Theorem rendering_pass (ui : Inputs) (w : World) :
  provider_errors_are_Exceptions client_results ->
  service_errors_are_Exceptions generate_content ->
  api_key ui <> EmptyString ->
  clicked ui = true ->
  let processor := mkGeminiProcessor "gemini-1.5-flash" in
  let leave := Exit (st.spinner "Fetching papers from Arxiv...") in
  let count (papers : list Paper) :=
    Show (st.success (str_nat (length papers)
                      +:+ " 件の論文が見つかりました。AI分析を開始します...")) in
  let searched :=
    search_papers client_results (mkArxivFetcher tt) (query ui) (max_results ui)
      (logs (opening ui) w) in
  let search_events := since (logs (opening ui) w) (snd searched) in
  (exists (papers : list Paper) (reviews : list (string * string)) (w' : World),
     fst searched = Returned papers
     /\ length (arxiv_requests search_events) <= 1
     /\ length reviews = length papers
     /\ reviews_returned generate_content processor 0 papers reviews
          (logs [leave; count papers] (snd searched))
     /\ main client_results generate_content ui w = (Returned tt, w')
     /\ since w w'
        = opening ui ++ search_events
          ++ leave :: results_view "gemini-1.5-flash" papers reviews
     /\ arxiv_requests (since w w') = arxiv_requests search_events
     /\ gemini_requests (since w w')
        = flat_map (requests_due "gemini-1.5-flash") papers)
  /\ (forall (search : ArxivFetcher -> string -> Z -> M exn (list Paper))
             (papers : list Paper) (w_s : World),
        search (mkArxivFetcher tt) (query ui) (max_results ui) (logs (opening ui) w)
        = (Returned papers, w_s) ->
        exists reviews : list (string * string),
          length reviews = length papers
          /\ reviews_returned generate_content processor 0 papers reviews
               (logs [leave; count papers] w_s)
          /\ main_with generate_content search ui w
             = (Returned tt,
                logs (leave :: results_view "gemini-1.5-flash" papers reviews) w_s))
  /\ (forall (search : ArxivFetcher -> string -> Z -> M exn (list Paper))
             (e : exn) (w_s : World),
        search (mkArxivFetcher tt) (query ui) (max_results ui) (logs (opening ui) w)
        = (Raised e, w_s) ->
        main_with generate_content search ui w = (Raised e, logs [leave] w_s)).
Proof.
  intros Hprov Hserv Hkey Hclick processor leave count searched search_events.
  assert (Hany : forall (search : ArxivFetcher -> string -> Z -> M exn (list Paper))
                        (papers : list Paper) (w_s : World),
    search (mkArxivFetcher tt) (query ui) (max_results ui) (logs (opening ui) w)
    = (Returned papers, w_s) ->
    exists reviews : list (string * string),
      length reviews = length papers
      /\ reviews_returned generate_content processor 0 papers reviews
           (logs [leave; count papers] w_s)
      /\ main_with generate_content search ui w
         = (Returned tt,
            logs (leave :: results_view "gemini-1.5-flash" papers reviews) w_s)).
  { intros search papers w_s Hs.
    pose proof (main_with_after_search search ui w Hserv Hkey Hclick) as H.
    cbv zeta in H. rewrite Hs in H. exact H. }
  split; [|split; [exact Hany|]].
  - destruct (search_papers_returns (mkArxivFetcher tt) (query ui)
                (max_results ui) (logs (opening ui) w) Hprov)
      as (papers & evs & Hfound & Htrace & Hone & Hnone).
    fold searched in Hfound, Htrace.
    assert (Hevs : search_events = evs) by (apply since_extend; exact Htrace).
    assert (Hs : searched = (Returned papers, snd searched))
      by (destruct searched as [found w_s]; cbn [fst snd] in *; subst found;
          reflexivity).
    destruct (Hany (search_papers client_results) papers (snd searched) Hs)
      as (reviews & Hlen & Hret & Hmain).
    exists papers, reviews,
      (logs (leave :: results_view "gemini-1.5-flash" papers reviews) (snd searched)).
    assert (Hsince :
      since w (logs (leave :: results_view "gemini-1.5-flash" papers reviews)
                 (snd searched))
      = opening ui ++ search_events
        ++ leave :: results_view "gemini-1.5-flash" papers reviews).
    { apply since_extend. cbn [trace logs]. rewrite Htrace, Hevs. cbn [trace logs].
      rewrite <- !app_assoc. reflexivity. }
    assert (Hview :
      gemini_requests (results_view "gemini-1.5-flash" papers reviews)
      = flat_map (requests_due "gemini-1.5-flash") papers
      /\ arxiv_requests (results_view "gemini-1.5-flash" papers reviews) = []).
    { unfold results_view. destruct papers as [|paper rest]; [split; reflexivity|].
      exact (cards_requests "gemini-1.5-flash" (paper :: rest) 0 reviews Hlen). }
    destruct Hview as [Hg Ha].
    split; [exact Hfound|]. split; [rewrite Hevs; exact Hone|].
    split; [exact Hlen|]. split; [exact Hret|]. split; [exact Hmain|].
    split; [exact Hsince|].
    rewrite Hsince. split.
    + rewrite !arxiv_requests_app.
      change (arxiv_requests (opening ui)) with (@nil arxiv.Search).
      change (leave :: results_view "gemini-1.5-flash" papers reviews)
        with ([leave] ++ results_view "gemini-1.5-flash" papers reviews).
      rewrite arxiv_requests_app, Ha. cbn. rewrite app_nil_r. reflexivity.
    + rewrite !gemini_requests_app.
      change (gemini_requests (opening ui))
        with (@nil (string * string * genai.GenerationConfig)).
      change (leave :: results_view "gemini-1.5-flash" papers reviews)
        with ([leave] ++ results_view "gemini-1.5-flash" papers reviews).
      rewrite gemini_requests_app, Hg, Hevs, Hnone. reflexivity.
  - intros search e w_s Hs.
    pose proof (main_with_after_search search ui w Hserv Hkey Hclick) as H.
    cbv zeta in H. rewrite Hs in H. exact H.
Qed.

End Page.

Lemma empty_credential_blocks_witness :
  main sample.two_results sample.answers
    (mkInputs EmptyString "LLM Agents" 3 true) sample.w0
  = (Returned tt, logs (page_top ++ credential_prompt) sample.w0)
  /\ arxiv_requests
       (since sample.w0
          (snd (main sample.two_results sample.answers
                  (mkInputs EmptyString "LLM Agents" 3 true) sample.w0))) = [].
Proof.
  destruct (empty_credential_blocks sample.two_results sample.answers
              (mkInputs EmptyString "LLM Agents" 3 true) sample.w0 eq_refl)
    as (Hmain & Hsearch & _).
  split; [exact Hmain | exact Hsearch].
Defined.

Lemma two_results_errors : provider_errors_are_Exceptions sample.two_results.
Proof. intros h s e H. discriminate H. Qed.

Lemma answers_errors : service_errors_are_Exceptions sample.answers.
Proof. intros h m p c e [H|H]; discriminate H. Qed.

Lemma by_temperature_errors : service_errors_are_Exceptions sample.by_temperature.
Proof. intros h m p c e [H|H]; discriminate H. Qed.

Lemma rendering_pass_witness :
  let ui := mkInputs "secret" "LLM Agents" 3 true in
  let papers := map paper_of [sample.r1; sample.r2] in
  let reviews := [("A sober review.", "A lively review.");
                  ("A sober review.", "A lively review.")] in
  let w' := snd (main sample.two_results sample.by_temperature ui sample.w0) in
  main sample.two_results sample.by_temperature ui sample.w0 = (Returned tt, w')
  /\ since sample.w0 w'
     = opening ui
       ++ [ ArxivRequest (search_of "LLM Agents" 3);
            Exit (st.spinner "Fetching papers from Arxiv...") ]
       ++ results_view "gemini-1.5-flash" papers reviews
  /\ arxiv_requests (since sample.w0 w') = [search_of "LLM Agents" 3]
  /\ gemini_requests (since sample.w0 w')
     = flat_map (requests_due "gemini-1.5-flash") papers
  /\ main_with sample.by_temperature (search_papers_body sample.two_results)
       ui sample.w0
     = (Returned tt,
        logs (opening ui
              ++ [ ArxivRequest (search_of "LLM Agents" 3);
                   Exit (st.spinner "Fetching papers from Arxiv...") ]
              ++ results_view "gemini-1.5-flash" papers reviews) sample.w0).
Proof.
  intros ui papers reviews w'.
  assert (Hkey : api_key ui <> EmptyString) by discriminate.
  destruct (rendering_pass sample.two_results sample.by_temperature ui sample.w0
              two_results_errors by_temperature_errors Hkey eq_refl)
    as [(ps & rs & w'' & Hfound & _ & Hlen & Hret & Hmain & Hsince & Ha & Hg)
        [Hany _]].
  vm_compute in Hfound. injection Hfound as <-.
  assert (Hw : w'' = w') by (unfold w'; rewrite Hmain; reflexivity).
  subst w''.
  destruct rs as [|[re1 rb1] [|[re2 rb2] [|]]]; try discriminate Hlen.
  destruct Hret as (H1 & H2 & H3 & H4 & _).
  vm_compute in H1. injection H1 as <-.
  vm_compute in H2. injection H2 as <-.
  vm_compute in H3. injection H3 as <-.
  vm_compute in H4. injection H4 as <-.
  split; [exact Hmain|]. split; [rewrite Hsince; vm_compute; reflexivity|].
  split; [rewrite Ha; vm_compute; reflexivity|]. split; [exact Hg|].
  destruct (Hany (search_papers_body sample.two_results) papers
              (log (ArxivRequest (search_of "LLM Agents" 3)) (logs (opening ui) sample.w0))
              eq_refl)
    as (rs' & Hlen' & Hret' & Hmain').
  destruct rs' as [|[re1 rb1] [|[re2 rb2] [|]]]; try discriminate Hlen'.
  destruct Hret' as (H1 & H2 & H3 & H4 & _).
  vm_compute in H1. injection H1 as <-.
  vm_compute in H2. injection H2 as <-.
  vm_compute in H3. injection H3 as <-.
  vm_compute in H4. injection H4 as <-.
  rewrite Hmain'. vm_compute. reflexivity.
Defined.

(** ** Concrete runs *)

(** A service that answers with the very text of an error report. *)
Lemma review_or_error_report :
  let echoes (_ : list event) (_ _ : string) (_ : genai.GenerationConfig)
      : outcome foreign_exn genai.GenerateContentResponse :=
    Returned (genai.mkResponse (Returned "Error generation review: 429 quota exceeded")) in
  fst (generate_review echoes sample.processor "We study planning." "expert" sample.w0)
  = fst (generate_review sample.refuses sample.processor "We study planning." "expert"
           sample.w0).
Proof. reflexivity. Qed.

Example search_two_results :
  fst (search_papers sample.two_results sample.fetcher "LLM Agents" 3 sample.w0)
  = Returned
      [ mkPaper "Agents that plan" "We study planning."
          "http://arxiv.org/abs/2403.00002v1" "2024-03-07" "A. Turing, E. Noether";
        mkPaper "Agents that read" "We study reading."
          "http://arxiv.org/abs/2403.00001v1" "2024-03-06" "K. Goedel" ].
Proof. vm_compute. reflexivity. Qed.

Example search_broken_page :
  let '(found, w) :=
    search_papers sample.broken_page sample.fetcher "LLM Agents" 3 sample.w0 in
  found = Returned []
  /\ trace w = [ ArxivRequest (search_of "LLM Agents" 3);
                 Show (st.error "Arxiv API Error: HTTP 503") ]
  /\ fresh_value 3600 (advance 3599 w) ("LLM Agents", 3%Z) = Some []
  /\ fresh_value 3600 (advance 3600 w) ("LLM Agents", 3%Z) = None.
Proof. vm_compute. repeat split; reflexivity. Qed.

(** An interrupt is not an [Exception]: it passes through both handlers. *)
Example interrupt_passes :
  fst (search_papers_body (fun _ _ => arxiv.Throw sample.interrupt)
         sample.fetcher "LLM Agents" 3 sample.w0)
  = Raised (Foreign sample.interrupt)
  /\ fst (generate_review (fun _ _ _ _ => Raised sample.interrupt)
            sample.processor "We study planning." "expert" sample.w0)
     = Raised (Foreign sample.interrupt).
Proof. split; reflexivity. Qed.

Example page_with_two_cards :
  let w := snd (main sample.two_results sample.answers
                  (mkInputs "secret" "LLM Agents" 3 true) sample.w0) in
  length (trace w) = 63
  /\ temperatures (trace w) = [0.0; 0.7; 0.0; 0.7]%float
  /\ fresh_value 3600 w ("LLM Agents", 3%Z)
     = Some (map paper_of [sample.r1; sample.r2]).
Proof. vm_compute. repeat split; reflexivity. Qed.

(** * Further properties of the script *)

(** ** More on the search client *)

Section SearchMore.

Variable client_results : list event -> arxiv.Search -> arxiv.results_iter.

(** X1. When the provider's iteration ends normally, the function under the
    decorator returns one record per result, in the provider's order, with
    title, summary and entry id copied as they are. *)
Theorem complete_answer_in_order (_self : ArxivFetcher) (query : string)
    (max_results : Z) (w : World) :
  let rs := yielded (client_results (trace w) (search_of query max_results)) in
  thrown (client_results (trace w) (search_of query max_results)) = None ->
  exists papers : list Paper,
    fst (search_papers_body client_results _self query max_results w)
    = Returned papers
    /\ length papers = length rs
    /\ map title papers = map arxiv.title rs
    /\ map summary papers = map arxiv.summary rs
    /\ map url papers = map arxiv.entry_id rs.
Proof.
  intros rs Hn. exists (map paper_of rs).
  rewrite search_papers_body_spec. cbv zeta. fold rs. rewrite Hn.
  split; [reflexivity|]. split; [apply length_map|].
  rewrite !map_map. repeat split; reflexivity.
Qed.

(** X2. Whatever the provider does (results, an error, an interrupt), one
    call of the function under the decorator sends exactly one search,
    carrying the query and the limit it was given and the order by
    submission date; it sends nothing to the generative service and
    leaves the clock and the memo table alone: no retry, no second page
    of its own. *)
Theorem search_sends_one_request (_self : ArxivFetcher) (query : string)
    (max_results : Z) (w : World) :
  let w' := snd (search_papers_body client_results _self query max_results w) in
  arxiv_requests (since w w')
  = [arxiv.mkSearch query max_results arxiv.SubmittedDate]
  /\ gemini_requests (since w w') = []
  /\ now w' = now w
  /\ memo w' = memo w.
Proof.
  cbv zeta. rewrite search_papers_body_spec. cbv zeta.
  destruct (thrown _) as [e|]; [destruct (isinstance_Exception e)|]; cbn [snd].
  - rewrite (since_extend w _
               [ArxivRequest (search_of query max_results);
                Show (st.error ("Arxiv API Error: " +:+ str e))])
      by (cbn; rewrite <- app_assoc; reflexivity).
    repeat split; reflexivity.
  - rewrite since_log. repeat split; reflexivity.
  - rewrite since_log. repeat split; reflexivity.
Qed.

(** X3. An error of the provider that is not an [Exception] (an interrupt)
    is not swallowed: it leaves [search_papers] as it is, no message is
    shown, and nothing is written to the memo table, also when results had
    been yielded before it. *)
Theorem search_interrupt_passes (_self : ArxivFetcher) (query : string)
    (max_results : Z) (w : World) (e : foreign_exn) :
  thrown (client_results (trace w) (search_of query max_results)) = Some e ->
  isinstance_Exception e = false ->
  fresh_value 3600 w (query, max_results) = None ->
  search_papers client_results _self query max_results w
  = (Raised (Foreign e), log (ArxivRequest (search_of query max_results)) w)
  /\ shown (since w (snd (search_papers client_results _self query max_results w)))
     = []
  /\ memo (snd (search_papers client_results _self query max_results w)) = memo w.
Proof.
  intros Ht He Hf.
  assert (H : search_papers client_results _self query max_results w
              = (Raised (Foreign e),
                 log (ArxivRequest (search_of query max_results)) w)).
  { unfold search_papers.
    rewrite (cache_data_miss _ _ _ _ _ _ Hf), search_papers_body_spec.
    cbv zeta. rewrite Ht, He. reflexivity. }
  rewrite H. cbn [snd]. rewrite since_log. repeat split; reflexivity.
Qed.

(** A call that has to fetch sends one search. *)
Lemma search_papers_fetch (_self : ArxivFetcher) (query : string)
    (max_results : Z) (w : World) :
  fresh_value 3600 w (query, max_results) = None ->
  arxiv_requests
    (since w (snd (search_papers client_results _self query max_results w)))
  = [search_of query max_results].
Proof.
  intros Hf. unfold search_papers.
  rewrite (cache_data_miss _ _ _ _ _ _ Hf), search_papers_body_spec. cbv zeta.
  destruct (thrown _) as [e|]; [destruct (isinstance_Exception e)|]; cbn [snd].
  - rewrite (since_extend w _
               [ArxivRequest (search_of query max_results);
                Show (st.error ("Arxiv API Error: " +:+ str e))])
      by (cbn; rewrite <- app_assoc; reflexivity).
    reflexivity.
  - rewrite since_log. reflexivity.
  - rewrite (since_extend w _ [ArxivRequest (search_of query max_results)])
      by reflexivity.
    reflexivity.
Qed.

(** X4. A failed search is remembered like any other: after an error of
    the provider, every call with the same pair during the next hour is
    answered with the empty list from the memo table, the provider not
    being asked again, whatever it would answer by then. *)
Theorem failed_search_is_memoised (_self : ArxivFetcher) (query : string)
    (max_results : Z) (w : World) (e : foreign_exn) (dt : Z) :
  fresh_value 3600 w (query, max_results) = None ->
  thrown (client_results (trace w) (search_of query max_results)) = Some e ->
  isinstance_Exception e = true ->
  (0 <= dt < 3600)%Z ->
  let w1 := snd (search_papers client_results _self query max_results w) in
  search_papers client_results _self query max_results (advance dt w1)
  = (Returned [], advance dt w1).
Proof.
  intros Hf Ht He Hdt w1.
  apply cache_data_hit.
  subst w1. unfold search_papers.
  rewrite (cache_data_miss _ _ _ _ _ _ Hf), search_papers_body_spec.
  cbv zeta. rewrite Ht, He. cbn [snd].
  unfold fresh_value, advance, remember. cbn [memo now log].
  rewrite lookup_insert_eq.
  replace (now w + dt <? now w + 3600)%Z with true
    by (symmetry; apply Z.ltb_lt; lia).
  reflexivity.
Qed.

(** Time passing does not make a stale entry fresh. *)
Lemma fresh_value_later (w : World) (key : string * Z) (dt : Z) :
  (0 <= dt)%Z -> fresh_value 3600 w key = None ->
  fresh_value 3600 (advance dt w) key = None.
Proof.
  unfold fresh_value, advance. cbn [memo now]. intros Hdt H.
  destruct (memo w !! key) as [[stored_at v]|]; [|reflexivity].
  destruct (now w <? stored_at + 3600)%Z eqn:Hlt; [discriminate|].
  apply Z.ltb_ge in Hlt.
  replace (now w + dt <? stored_at + 3600)%Z with false
    by (symmetry; apply Z.ltb_ge; lia).
  reflexivity.
Qed.

(** X5. The memo table is keyed by the query and the limit together: a
    result kept for one pair never serves another.  After any search, a
    call with a different query or a different limit, for which nothing
    fresh is kept, goes to the provider with its own search. *)
Theorem other_pair_is_fetched (_self : ArxivFetcher) (query query' : string)
    (max_results max_results' : Z) (w : World) (dt : Z) :
  (query', max_results') <> (query, max_results) ->
  fresh_value 3600 w (query', max_results') = None ->
  (0 <= dt)%Z ->
  let w1 := advance dt (snd (search_papers client_results _self query max_results w)) in
  arxiv_requests
    (since w1 (snd (search_papers client_results _self query' max_results' w1)))
  = [search_of query' max_results'].
Proof.
  intros Hne Hf Hdt w1. apply search_papers_fetch.
  subst w1. apply fresh_value_later; [exact Hdt|].
  unfold fresh_value in *.
  rewrite search_papers_memo_other by exact Hne.
  rewrite search_papers_now. exact Hf.
Qed.

(** X6. An entry that is 3600 seconds old or more is not used: the call
    goes to the provider and, when it returns, its result replaces the
    entry, stamped with the time of the call. *)
Theorem stale_entry_is_refetched (_self : ArxivFetcher) (query : string)
    (max_results : Z) (w : World) (stored_at : Z) (old : list Paper) :
  memo w !! (query, max_results) = Some (stored_at, old) ->
  (stored_at + 3600 <= now w)%Z ->
  let called := search_papers client_results _self query max_results w in
  arxiv_requests (since w (snd called)) = [search_of query max_results]
  /\ (forall value : list Paper,
        fst called = Returned value ->
        memo (snd called) !! (query, max_results) = Some (now w, value)).
Proof.
  intros Hm Hold called.
  assert (Hf : fresh_value 3600 w (query, max_results) = None).
  { unfold fresh_value. rewrite Hm.
    replace (now w <? stored_at + 3600)%Z with false
      by (symmetry; apply Z.ltb_ge; lia).
    reflexivity. }
  split; [apply search_papers_fetch; exact Hf|].
  intros value. subst called. unfold search_papers.
  rewrite (cache_data_miss _ _ _ _ _ _ Hf).
  pose proof (search_papers_body_frame client_results _self query max_results w)
    as [Hn _].
  destruct (search_papers_body client_results _self query max_results w)
    as [[v|e'] w']; cbn [fst snd] in *; [|discriminate].
  intros [= ->]. unfold remember. cbn [memo]. rewrite Hn.
  apply lookup_insert_eq.
Qed.

End SearchMore.

Lemma complete_answer_in_order_witness :
  exists papers : list Paper,
    fst (search_papers_body sample.two_results sample.fetcher "LLM Agents" 3 sample.w0)
    = Returned papers
    /\ length papers = 2
    /\ map title papers = ["Agents that plan"; "Agents that read"]
    /\ map summary papers = ["We study planning."; "We study reading."]
    /\ map url papers
       = ["http://arxiv.org/abs/2403.00002v1"; "http://arxiv.org/abs/2403.00001v1"].
Proof.
  exact (complete_answer_in_order sample.two_results sample.fetcher
           "LLM Agents" 3 sample.w0 eq_refl).
Defined.

Lemma search_interrupt_passes_witness :
  search_papers sample.interrupted sample.fetcher "LLM Agents" 3 sample.w0
  = (Raised (Foreign sample.interrupt),
     log (ArxivRequest (search_of "LLM Agents" 3)) sample.w0)
  /\ yielded (sample.interrupted [] (search_of "LLM Agents" 3)) = [sample.r1].
Proof.
  split; [|reflexivity].
  destruct (search_interrupt_passes sample.interrupted sample.fetcher
              "LLM Agents" 3 sample.w0 sample.interrupt eq_refl eq_refl eq_refl)
    as [H _].
  exact H.
Defined.

Lemma failed_search_is_memoised_witness :
  let w1 := snd (search_papers sample.recovering sample.fetcher
                   "LLM Agents" 3 sample.w0) in
  search_papers sample.recovering sample.fetcher "LLM Agents" 3 (advance 1800 w1)
  = (Returned [], advance 1800 w1)
  /\ yielded (sample.recovering (trace (advance 1800 w1)) (search_of "LLM Agents" 3))
     = [sample.r1; sample.r2].
Proof.
  split; [|reflexivity].
  apply (failed_search_is_memoised sample.recovering sample.fetcher
           "LLM Agents" 3 sample.w0 sample.timeout 1800).
  - reflexivity.
  - reflexivity.
  - reflexivity.
  - lia.
Defined.

Lemma other_pair_is_fetched_witness :
  let w1 := advance 10 (snd (search_papers sample.two_results sample.fetcher
                               "LLM Agents" 3 sample.w0)) in
  arxiv_requests
    (since w1 (snd (search_papers sample.two_results sample.fetcher
                      "LLM Agents" 5 w1)))
  = [search_of "LLM Agents" 5].
Proof.
  apply (other_pair_is_fetched sample.two_results sample.fetcher
           "LLM Agents" "LLM Agents" 3 5 sample.w0 10).
  - discriminate.
  - reflexivity.
  - lia.
Defined.

Lemma stale_entry_is_refetched_witness :
  let w := advance 3600 (snd (search_papers sample.two_results sample.fetcher
                                "LLM Agents" 3 sample.w0)) in
  arxiv_requests
    (since w (snd (search_papers sample.two_results sample.fetcher "LLM Agents" 3 w)))
  = [search_of "LLM Agents" 3].
Proof.
  intros w.
  assert (Hm : memo w !! ("LLM Agents", 3%Z)
               = Some (1700000000%Z, map paper_of [sample.r1; sample.r2]))
    by (vm_compute; reflexivity).
  assert (Hold : (1700000000 + 3600 <= now w)%Z) by (vm_compute; discriminate).
  destruct (stale_entry_is_refetched sample.two_results sample.fetcher
              "LLM Agents" 3 w _ _ Hm Hold) as [H _].
  exact H.
Defined.

(** ** More on the review generator *)

Section ReviewMore.

Variable generate_content :
  list event -> string -> string -> genai.GenerationConfig ->
  outcome foreign_exn genai.GenerateContentResponse.

(** X7. Whatever the persona and whatever the service does, one call of
    [generate_review] sends at most one request (a failure is not
    retried), sends nothing to the arXiv client, shows nothing on the page
    and leaves the clock and the memo table alone. *)
Theorem review_sends_at_most_one_request (self : GeminiProcessor)
    (text persona : string) (w : World) :
  let w' := snd (generate_review generate_content self text persona w) in
  length (gemini_requests (since w w')) <= 1
  /\ arxiv_requests (since w w') = []
  /\ shown (since w w') = []
  /\ now w' = now w
  /\ memo w' = memo w.
Proof.
  cbv zeta. destruct (prompts !! persona) as [prompt|] eqn:Hp.
  - rewrite (generate_review_request generate_content self text persona prompt w Hp).
    rewrite since_log. cbn. repeat split; lia.
  - unfold generate_review, bind, getitem, raise. rewrite Hp. cbn [snd].
    rewrite since_refl. cbn. repeat split; lia.
Qed.

(** X8. An error of the service that is not an [Exception] (an interrupt),
    raised by the request or by reading the text of the response, is not
    turned into a review: it leaves [generate_review] as it is. *)
Theorem review_interrupt_passes (self : GeminiProcessor)
    (text persona prompt : string) (w : World) (e : foreign_exn) :
  prompts !! persona = Some prompt ->
  (generate_content (trace w) (model_name self) (full_prompt_for prompt text)
     (genai.mkGenerationConfig (temperature_for persona)) = Raised e
   \/ generate_content (trace w) (model_name self) (full_prompt_for prompt text)
        (genai.mkGenerationConfig (temperature_for persona))
      = Returned (genai.mkResponse (Raised e))) ->
  isinstance_Exception e = false ->
  fst (generate_review generate_content self text persona w) = Raised (Foreign e).
Proof.
  intros Hp Hg He.
  unfold generate_review, bind, getitem, try_except_Exception,
    model_generate_content, response_text, ret, raise.
  rewrite Hp. cbn.
  destruct Hg as [Hg|Hg]; rewrite Hg; cbn; rewrite He; reflexivity.
Qed.

(** X9. When the response arrives but reading its text raises an error
    (an instance of [Exception]), the one request has been sent and the
    call returns the error report, as for a failed request. *)
Theorem unreadable_response_reported (self : GeminiProcessor)
    (text persona prompt : string) (w : World) (e : foreign_exn) :
  prompts !! persona = Some prompt ->
  generate_content (trace w) (model_name self) (full_prompt_for prompt text)
    (genai.mkGenerationConfig (temperature_for persona))
    = Returned (genai.mkResponse (Raised e)) ->
  isinstance_Exception e = true ->
  generate_review generate_content self text persona w
  = (Returned (error_report e),
     log (GeminiRequest (model_name self) (full_prompt_for prompt text)
            (genai.mkGenerationConfig (temperature_for persona))) w)
  /\ String.prefix "Error generation review: " (error_report e) = true.
Proof.
  intros Hp Hg He. split; [|apply prefix_append].
  unfold generate_review, bind, getitem, try_except_Exception,
    model_generate_content, response_text, ret, raise.
  rewrite Hp. cbn. rewrite Hg. cbn. rewrite He. reflexivity.
Qed.

End ReviewMore.

Lemma review_interrupt_passes_witness :
  fst (generate_review sample.stopped sample.processor "We study planning."
         "expert" sample.w0)
  = Raised (Foreign sample.interrupt).
Proof.
  apply (review_interrupt_passes sample.stopped sample.processor
           "We study planning." "expert" expert_prompt sample.w0 sample.interrupt).
  - vm_compute. reflexivity.
  - left. reflexivity.
  - reflexivity.
Defined.

Lemma unreadable_response_reported_witness :
  fst (generate_review sample.unreadable sample.processor "We study planning."
         "beginner" sample.w0)
  = Returned "Error generation review: response was blocked".
Proof.
  assert (Hp : prompts !! "beginner" = Some beginner_prompt)
    by (vm_compute; reflexivity).
  destruct (unreadable_response_reported sample.unreadable sample.processor
              "We study planning." "beginner" beginner_prompt sample.w0
              sample.blocked Hp eq_refl eq_refl) as [H _].
  rewrite H. reflexivity.
Defined.

(** ** More on dates *)

(** X10. The [published] field tells the day and nothing else: the records
    of two results carry the same string exactly when the results were
    published on the same calendar day, whatever the time of day. *)
Theorem published_tells_the_day (r r' : arxiv.Result) :
  well_dated r = true -> well_dated r' = true ->
  (published (paper_of r) = published (paper_of r')
   <-> year (arxiv.published r) = year (arxiv.published r')
       /\ month (arxiv.published r) = month (arxiv.published r')
       /\ day (arxiv.published r) = day (arxiv.published r')).
Proof.
  intros Hr Hr'. split.
  - intros Heq.
    pose proof (parse_published r Hr) as Hp.
    pose proof (parse_published r' Hr') as Hp'.
    rewrite Heq, Hp' in Hp. injection Hp as Hy Hm Hd.
    repeat split; congruence.
  - intros (Hy & Hm & Hd). cbn [published paper_of]. unfold strftime_Ymd.
    rewrite Hy, Hm, Hd. reflexivity.
Qed.

Lemma published_tells_the_day_witness :
  published (paper_of sample.r1)
  = published (paper_of (arxiv.mkResult "Agents that write" "We study writing."
                           "http://arxiv.org/abs/2403.00003v1"
                           (DateTime 2024 3 7 0 0 1) []))
  <-> (2024 = 2024 /\ 3 = 3 /\ 7 = 7)%Z.
Proof.
  apply (published_tells_the_day sample.r1
           (arxiv.mkResult "Agents that write" "We study writing."
              "http://arxiv.org/abs/2403.00003v1" (DateTime 2024 3 7 0 0 1) []));
    reflexivity.
Defined.

(** ** More on the page *)

Section PageMore.

Variable client_results : list event -> arxiv.Search -> arxiv.results_iter.
Variable generate_content :
  list event -> string -> string -> genai.GenerationConfig ->
  outcome foreign_exn genai.GenerateContentResponse.

(** X11. With any non-empty credential (blanks included) and the button
    not pressed, a run configures the service with that very credential,
    shows the button and ends: nothing is searched, no review is
    requested, the memo table is left as it was. *)
Theorem idle_until_clicked (ui : Inputs) (w : World) :
  api_key ui <> EmptyString ->
  clicked ui = false ->
  main client_results generate_content ui w
  = (Returned tt,
     logs (page_top ++ [GenaiConfigure (api_key ui);
                        Show (st.button "Search & Analyze 🚀")]) w)
  /\ arxiv_requests (since w (snd (main client_results generate_content ui w))) = []
  /\ gemini_requests (since w (snd (main client_results generate_content ui w))) = []
  /\ memo (snd (main client_results generate_content ui w)) = memo w.
Proof.
  intros Hkey Hclick.
  assert (H : main client_results generate_content ui w
              = (Returned tt,
                 logs (page_top ++ [GenaiConfigure (api_key ui);
                                    Show (st.button "Search & Analyze 🚀")]) w)).
  { unfold main, main_with, ArxivFetcher_init, GeminiProcessor_init.
    unfold with_, bind, show, emit, ret.
    destruct (api_key ui) as [|a key] eqn:Hk; [congruence|]. rewrite <- Hk.
    rewrite Hclick. f_equal. flatten_logs. reflexivity. }
  rewrite H. cbn [snd]. rewrite since_logs.
  repeat split; reflexivity.
Qed.

(** X12. When the provider fails during the search of a run, the page
    shows the error message of the search and then the "not found"
    message, as for a search without results; no review is requested, and
    the empty answer is kept in the memo table. *)
Theorem failed_search_reads_not_found (ui : Inputs) (w : World) (e : foreign_exn) :
  api_key ui <> EmptyString ->
  clicked ui = true ->
  fresh_value 3600 w (query ui, max_results ui) = None ->
  thrown (client_results (trace w ++ opening ui)
            (search_of (query ui) (max_results ui))) = Some e ->
  isinstance_Exception e = true ->
  let w' := snd (main client_results generate_content ui w) in
  fst (main client_results generate_content ui w) = Returned tt
  /\ since w w'
     = opening ui
       ++ [ ArxivRequest (search_of (query ui) (max_results ui));
            Show (st.error ("Arxiv API Error: " +:+ str e));
            Exit (st.spinner "Fetching papers from Arxiv...");
            Show (st.warning "論文が見つかりませんでした。キーワードを変えて試してください。") ]
  /\ gemini_requests (since w w') = []
  /\ memo w' !! (query ui, max_results ui) = Some (now w, []).
Proof.
  intros Hkey Hclick Hf Ht He.
  assert (Hsearch :
    search_papers client_results (mkArxivFetcher tt) (query ui) (max_results ui)
      (logs (opening ui) w)
    = (Returned [],
       remember (query ui, max_results ui) []
         (logs (opening ui
                ++ [ ArxivRequest (search_of (query ui) (max_results ui));
                     Show (st.error ("Arxiv API Error: " +:+ str e)) ]) w))).
  { assert (Hf' : fresh_value 3600 (logs (opening ui) w)
                     (query ui, max_results ui) = None) by exact Hf.
    unfold search_papers.
    rewrite (cache_data_miss _ _ _ _ _ _ Hf').
    rewrite search_papers_body_spec. cbv zeta. cbn [trace logs].
    rewrite Ht, He. flatten_logs. reflexivity. }
  assert (H : main client_results generate_content ui w
              = (Returned tt,
                 logs [ Exit (st.spinner "Fetching papers from Arxiv...");
                        Show (st.warning "論文が見つかりませんでした。キーワードを変えて試してください。") ]
                   (remember (query ui, max_results ui) []
                      (logs (opening ui
                             ++ [ ArxivRequest (search_of (query ui) (max_results ui));
                                  Show (st.error ("Arxiv API Error: " +:+ str e)) ])
                         w)))).
  { unfold main, main_with, ArxivFetcher_init, GeminiProcessor_init.
    unfold with_, bind, show, emit, ret.
    destruct (api_key ui) as [|a key] eqn:Hk; [congruence|]. rewrite <- Hk.
    rewrite Hclick. flatten_logs.
    change (logs _ w) with (logs (opening ui) w) at 1.
    rewrite Hsearch. flatten_logs. reflexivity. }
  cbv zeta. rewrite H. cbn [fst snd].
  rewrite (since_extend w _
             (opening ui
              ++ [ ArxivRequest (search_of (query ui) (max_results ui));
                   Show (st.error ("Arxiv API Error: " +:+ str e));
                   Exit (st.spinner "Fetching papers from Arxiv...");
                   Show (st.warning "論文が見つかりませんでした。キーワードを変えて試してください。") ]))
    by (cbn [trace logs remember]; rewrite <- !app_assoc; reflexivity).
  split; [reflexivity|]. split; [reflexivity|]. split.
  - rewrite gemini_requests_app. reflexivity.
  - cbn [memo logs remember now]. apply lookup_insert_eq.
Qed.

(** X13. With a service that fails at every request, the loop over the
    records still runs to its end: every record gets its card, and both
    panels of each card show the error report in place of a review. *)
Theorem failed_reviews_fill_the_panels (processor : GeminiProcessor)
    (papers : list Paper) (e : foreign_exn) :
  (forall (h : list event) (m p : string) (c : genai.GenerationConfig),
      generate_content h m p c = Raised e) ->
  isinstance_Exception e = true ->
  forall (i : nat) (w : World),
    for_papers generate_content processor i papers w
    = (Returned tt,
       logs (cards (model_name processor) i papers
               (repeat (error_report e, error_report e) (length papers))) w).
Proof.
  intros Hfail He. induction papers as [|paper rest IH]; intros i w.
  - cbn. rewrite logs_nil. reflexivity.
  - assert (Hrev : forall persona prompt w1,
              prompts !! persona = Some prompt ->
              generate_review generate_content processor (summary paper) persona w1
              = (Returned (error_report e),
                 log (GeminiRequest (model_name processor)
                        (full_prompt_for prompt (summary paper))
                        (genai.mkGenerationConfig (temperature_for persona))) w1)).
    { intros persona prompt w1 Hp.
      unfold generate_review, bind, getitem, try_except_Exception,
        model_generate_content, ret.
      rewrite Hp. cbn. rewrite Hfail. cbn. rewrite He. reflexivity. }
    cbn [for_papers]. unfold with_, bind, show, emit.
    rewrite (Hrev "expert" expert_prompt _ prompts_expert).
    rewrite (Hrev "beginner" beginner_prompt _ prompts_beginner).
    rewrite IH. f_equal. flatten_logs. reflexivity.
Qed.

End PageMore.

(** ** Blocks are closed in the order they were opened *)


Lemma block_eqb_refl (b : st.block) : block_eqb b b = true.
Proof.
  destruct b; cbn; try reflexivity;
    [apply String.eqb_refl | apply String.eqb_refl | apply Nat.eqb_refl].
Qed.

Lemma nesting_app (xs ys : list event) :
  forall open : list st.block,
    nesting open (xs ++ ys) =
      match nesting open xs with
      | Some open' => nesting open' ys
      | None => None
      end.
Proof.
  induction xs as [|x xs IH]; intros open; [reflexivity|].
  destruct x as [b|b| | | |]; cbn [app nesting]; try apply IH.
  destruct open as [|b' open']; [reflexivity|].
  destruct (block_eqb b b'); [apply IH | reflexivity].
Qed.

Lemma tidy_ret {E A} (a : A) : tidy (@ret E A a).
Proof. intros w. exists []. cbn. rewrite app_nil_r. split; reflexivity. Qed.

Lemma tidy_raise {E A} (e : E) : tidy (@raise E A e).
Proof. intros w. exists []. cbn. rewrite app_nil_r. split; reflexivity. Qed.

Lemma tidy_show {E} (el : st.element) : tidy (@show E el).
Proof. intros w. exists [Show el]. split; reflexivity. Qed.

Lemma tidy_bind {E A B} (c : M E A) (k : A -> M E B) :
  tidy c -> (forall a, tidy (k a)) -> tidy (bind c k).
Proof.
  intros Hc Hk w. unfold bind.
  destruct (Hc w) as (evs1 & Ht1 & Hn1).
  destruct (c w) as [[a|e] w1]; cbn [snd] in *.
  - destruct (Hk a w1) as (evs2 & Ht2 & Hn2).
    exists (evs1 ++ evs2). split.
    + rewrite Ht2, Ht1, app_assoc. reflexivity.
    + intros open. rewrite nesting_app, Hn1. apply Hn2.
  - exists evs1. split; assumption.
Qed.

Lemma tidy_with {E A} (b : st.block) (c : M E A) : tidy c -> tidy (with_ b c).
Proof.
  intros Hc w. unfold with_.
  destruct (Hc (log (Enter b) w)) as (evs & Ht & Hn).
  destruct (c (log (Enter b) w)) as [r w1]; cbn [snd] in *.
  exists (Enter b :: evs ++ [Exit b]). split.
  - cbn [trace log]. rewrite Ht. cbn [trace log].
    rewrite <- !app_assoc. reflexivity.
  - intros open. cbn [nesting]. rewrite nesting_app, Hn. cbn [nesting].
    rewrite block_eqb_refl. reflexivity.
Qed.

Lemma tidy_try {A} (body : M foreign_exn A) (handler : foreign_exn -> M exn A) :
  tidy body -> (forall e, tidy (handler e)) -> tidy (try_except_Exception body handler).
Proof.
  intros Hb Hh w. unfold try_except_Exception.
  destruct (Hb w) as (evs1 & Ht1 & Hn1).
  destruct (body w) as [[a|e] w1]; cbn [snd] in *.
  - exists evs1. split; assumption.
  - destruct (isinstance_Exception e).
    + destruct (Hh e w1) as (evs2 & Ht2 & Hn2).
      exists (evs1 ++ evs2). split.
      * rewrite Ht2, Ht1, app_assoc. reflexivity.
      * intros open. rewrite nesting_app, Hn1. apply Hn2.
    + exists evs1. split; assumption.
Qed.

Section Nesting.

Variable client_results : list event -> arxiv.Search -> arxiv.results_iter.
Variable generate_content :
  list event -> string -> string -> genai.GenerationConfig ->
  outcome foreign_exn genai.GenerateContentResponse.

Lemma tidy_search_papers (_self : ArxivFetcher) (query : string) (max_results : Z) :
  tidy (search_papers client_results _self query max_results).
Proof.
  intros w. unfold search_papers, cache_data.
  assert (Hmiss : exists evs : list event,
    trace (snd (let (o, w') := search_papers_body client_results _self query max_results w in
                match o with
                | Returned value =>
                    (Returned value, remember (query, max_results) value w')
                | Raised e => (@Raised exn (list Paper) e, w')
                end)) = trace w ++ evs
    /\ forall open : list st.block, nesting open evs = Some open).
  { rewrite search_papers_body_spec. cbv zeta.
    destruct (thrown _) as [e|]; [destruct (isinstance_Exception e)|].
    - eexists [_; _]. split; [cbn; rewrite <- app_assoc; reflexivity | reflexivity].
    - eexists [_]. split; reflexivity.
    - eexists [_]. split; reflexivity. }
  destruct (memo w !! (query, max_results)) as [[stored_at value]|]; [|exact Hmiss].
  destruct (now w <? stored_at + 3600)%Z; [|exact Hmiss].
  exists []. cbn. rewrite app_nil_r. split; reflexivity.
Qed.

Lemma tidy_generate_review (self : GeminiProcessor) (text persona : string) :
  tidy (generate_review generate_content self text persona).
Proof.
  intros w. destruct (prompts !! persona) as [prompt|] eqn:Hp.
  - rewrite (generate_review_request generate_content self text persona prompt w Hp).
    eexists [_]. split; reflexivity.
  - unfold generate_review, bind, getitem, raise. rewrite Hp. cbn [snd].
    exists []. rewrite app_nil_r. split; reflexivity.
Qed.

Lemma tidy_for_papers (processor : GeminiProcessor) (papers : list Paper) :
  forall i : nat, tidy (for_papers generate_content processor i papers).
Proof.
  induction papers as [|paper rest IH]; intros i; cbn [for_papers].
  - apply tidy_ret.
  - apply tidy_bind; [|intros _; apply IH].
    repeat first
      [ apply tidy_with
      | apply tidy_show
      | apply tidy_generate_review
      | apply tidy_bind; [|intros ?] ].
Qed.

(** X14. In every run of the page, whatever the inputs and whatever the
    two services do (results, errors, interrupts), the blocks of the page
    are well nested: each spinner, column, expander, container and the
    sidebar is left exactly once, after everything opened inside it has
    been left, also when the run ends by an exception. *)
Theorem blocks_are_well_nested (ui : Inputs) (w : World) :
  well_nested (since w (snd (main client_results generate_content ui w))).
Proof.
  assert (Hmain : tidy (main client_results generate_content ui)).
  { unfold main, main_with, ArxivFetcher_init, GeminiProcessor_init.
    apply tidy_bind; [apply tidy_show | intros _].
    apply tidy_bind; [apply tidy_show | intros _].
    apply tidy_bind.
    { apply tidy_with.
      repeat first [ apply tidy_show | apply tidy_bind; [|intros ?] ]. }
    intros _. destruct (api_key ui); [apply tidy_show|].
    apply tidy_bind; [apply tidy_ret | intros fetcher].
    apply tidy_bind.
    { apply tidy_bind; [|intros _; apply tidy_ret].
      intros w1. eexists [_]. split; reflexivity. }
    intros processor.
    apply tidy_bind; [apply tidy_show | intros _].
    destruct (clicked ui); [|apply tidy_ret].
    apply tidy_bind; [apply tidy_with; apply tidy_search_papers | intros papers].
    destruct papers as [|paper rest]; [apply tidy_show|].
    apply tidy_bind; [apply tidy_show | intros _].
    apply tidy_for_papers. }
  destruct (Hmain w) as (evs & Ht & Hn).
  rewrite (since_extend _ _ _ Ht). apply Hn.
Qed.

End Nesting.

(** ** Two clicks *)

Section Clicks.

Variable client_results : list event -> arxiv.Search -> arxiv.results_iter.
Variable generate_content :
  list event -> string -> string -> genai.GenerationConfig ->
  outcome foreign_exn genai.GenerateContentResponse.

(** A run with a credential and the button pressed, from its search on. *)
Lemma main_after_search (ui : Inputs) (w w_s : World) (papers : list Paper) :
  service_errors_are_Exceptions generate_content ->
  api_key ui <> EmptyString ->
  clicked ui = true ->
  search_papers client_results (mkArxivFetcher tt) (query ui) (max_results ui)
    (logs (opening ui) w) = (Returned papers, w_s) ->
  exists reviews : list (string * string),
    length reviews = length papers
    /\ main client_results generate_content ui w
       = (Returned tt,
          logs (Exit (st.spinner "Fetching papers from Arxiv...")
                :: results_view "gemini-1.5-flash" papers reviews) w_s).
Proof.
  intros Hserv Hkey Hclick Hsearch.
  unfold main, main_with, ArxivFetcher_init, GeminiProcessor_init.
  unfold with_, bind, show, emit, ret.
  destruct (api_key ui) as [|a key] eqn:Hk; [congruence|]. rewrite <- Hk.
  rewrite Hclick. flatten_logs.
  change (logs _ w) with (logs (opening ui) w).
  rewrite Hsearch.
  destruct papers as [|paper rest].
  - exists []. split; [reflexivity|]. flatten_logs. reflexivity.
  - destruct (for_papers_cards generate_content (mkGeminiProcessor "gemini-1.5-flash")
                (paper :: rest) Hserv 0
                (log (Show (st.success
                        (str_nat (length (paper :: rest))
                         +:+ " 件の論文が見つかりました。AI分析を開始します...")))
                   (log (Exit (st.spinner "Fetching papers from Arxiv...")) w_s)))
      as (reviews & Hlen & Hfor).
    exists reviews. split; [exact Hlen|].
    rewrite Hfor. flatten_logs. reflexivity.
Qed.

Lemma results_view_requests (papers : list Paper) (reviews : list (string * string)) :
  length reviews = length papers ->
  gemini_requests (results_view "gemini-1.5-flash" papers reviews)
  = flat_map (requests_due "gemini-1.5-flash") papers
  /\ arxiv_requests (results_view "gemini-1.5-flash" papers reviews) = [].
Proof.
  intros Hlen. unfold results_view.
  destruct papers as [|paper rest]; [split; reflexivity|].
  exact (cards_requests "gemini-1.5-flash" (paper :: rest) 0 reviews Hlen).
Qed.

(** X15. Only the search is memoised, not the reviews.  Pressing the
    button again within the hour, with the same query and limit, asks the
    provider nothing, and sends to the generative service the very
    requests of the first run, all of them, once more. *)
Theorem second_click_repeats_reviews (ui : Inputs) (w : World) (dt : Z) :
  provider_errors_are_Exceptions client_results ->
  service_errors_are_Exceptions generate_content ->
  api_key ui <> EmptyString ->
  clicked ui = true ->
  fresh_value 3600 w (query ui, max_results ui) = None ->
  (0 <= dt < 3600)%Z ->
  let w1 := snd (main client_results generate_content ui w) in
  let w2 := snd (main client_results generate_content ui (advance dt w1)) in
  arxiv_requests (since w w1) = [search_of (query ui) (max_results ui)]
  /\ arxiv_requests (since (advance dt w1) w2) = []
  /\ gemini_requests (since (advance dt w1) w2) = gemini_requests (since w w1).
Proof.
  intros Hprov Hserv Hkey Hclick Hf Hdt.
  (* the first run: the search is fetched and kept *)
  assert (Hf' : fresh_value 3600 (logs (opening ui) w)
                  (query ui, max_results ui) = None) by exact Hf.
  assert (Hfirst : exists (papers : list Paper) (evs : list event),
    search_papers client_results (mkArxivFetcher tt) (query ui) (max_results ui)
      (logs (opening ui) w)
    = (Returned papers,
       remember (query ui, max_results ui) papers (logs (opening ui ++ evs) w))
    /\ arxiv_requests evs = [search_of (query ui) (max_results ui)]
    /\ gemini_requests evs = []).
  { unfold search_papers.
    rewrite (cache_data_miss _ _ _ _ _ _ Hf'), search_papers_body_spec.
    cbv zeta.
    destruct (thrown _) as [e|] eqn:Ht.
    - rewrite (Hprov _ _ _ Ht). eexists [], [_; _]. flatten_logs.
      repeat split; reflexivity.
    - eexists _, [_]. flatten_logs. repeat split; reflexivity. }
  destruct Hfirst as (papers & evs & Hsearch1 & Hevs_a & Hevs_g).
  destruct (main_after_search ui w _ papers Hserv Hkey Hclick Hsearch1)
    as (reviews1 & Hlen1 & Hmain1).
  destruct (results_view_requests papers reviews1 Hlen1) as [Hg1 Ha1].
  cbv zeta. rewrite Hmain1. cbn [snd].
  set (w1 := logs _ (remember _ papers _)).
  assert (Hsince1 : since w w1
            = opening ui ++ evs
              ++ [Exit (st.spinner "Fetching papers from Arxiv...")]
              ++ results_view "gemini-1.5-flash" papers reviews1).
  { apply since_extend. subst w1. cbn [trace logs remember app].
    rewrite <- !app_assoc. reflexivity. }
  (* the second run: the search is served from the table *)
  assert (Hhit : fresh_value 3600 (logs (opening ui) (advance dt w1))
                   (query ui, max_results ui) = Some papers).
  { unfold fresh_value. subst w1. cbn [memo now logs advance remember].
    rewrite lookup_insert_eq.
    replace (now w + dt <? now w + 3600)%Z with true
      by (symmetry; apply Z.ltb_lt; lia).
    reflexivity. }
  assert (Hsearch2 :
    search_papers client_results (mkArxivFetcher tt) (query ui) (max_results ui)
      (logs (opening ui) (advance dt w1))
    = (Returned papers, logs (opening ui) (advance dt w1)))
    by (apply cache_data_hit; exact Hhit).
  destruct (main_after_search ui (advance dt w1) _ papers Hserv Hkey Hclick Hsearch2)
    as (reviews2 & Hlen2 & Hmain2).
  destruct (results_view_requests papers reviews2 Hlen2) as [Hg2 Ha2].
  rewrite Hmain2. cbn [snd].
  rewrite (since_extend (advance dt w1) _
             (opening ui
              ++ [Exit (st.spinner "Fetching papers from Arxiv...")]
              ++ results_view "gemini-1.5-flash" papers reviews2))
    by (cbn [trace logs advance app]; rewrite <- !app_assoc; reflexivity).
  rewrite Hsince1.
  rewrite !arxiv_requests_app, !gemini_requests_app.
  rewrite Hevs_a, Hevs_g, Hg1, Ha1, Hg2, Ha2.
  repeat split; reflexivity.
Qed.

End Clicks.

(** ** Concrete runs of the further properties *)

Lemma idle_until_clicked_witness :
  main sample.two_results sample.answers (mkInputs " " "LLM Agents" 3 false) sample.w0
  = (Returned tt,
     logs (page_top ++ [GenaiConfigure " "; Show (st.button "Search & Analyze 🚀")])
       sample.w0).
Proof.
  assert (Hkey : " " <> EmptyString) by discriminate.
  destruct (idle_until_clicked sample.two_results sample.answers
              (mkInputs " " "LLM Agents" 3 false) sample.w0 Hkey eq_refl)
    as [H _].
  exact H.
Defined.

Lemma failed_search_reads_not_found_witness :
  let ui := mkInputs "secret" "LLM Agents" 3 true in
  let w' := snd (main sample.broken_page sample.answers ui sample.w0) in
  shown (drop (length (opening ui)) (since sample.w0 w'))
  = [ st.error "Arxiv API Error: HTTP 503";
      st.warning "論文が見つかりませんでした。キーワードを変えて試してください。" ]
  /\ gemini_requests (since sample.w0 w') = [].
Proof.
  intros ui w'.
  assert (Hkey : api_key ui <> EmptyString) by discriminate.
  destruct (failed_search_reads_not_found sample.broken_page sample.answers
              ui sample.w0 sample.timeout Hkey eq_refl eq_refl eq_refl eq_refl)
    as (_ & Hsince & Hnone & _).
  fold w' in Hsince, Hnone. split; [|exact Hnone].
  rewrite Hsince, drop_app_length. reflexivity.
Defined.

Lemma failed_reviews_fill_the_panels_witness :
  let papers := map paper_of [sample.r1; sample.r2] in
  let report := "Error generation review: 429 quota exceeded" in
  for_papers sample.refuses sample.processor 0 papers sample.w0
  = (Returned tt,
     logs (cards "gemini-1.5-flash" 0 papers [(report, report); (report, report)])
       sample.w0).
Proof.
  apply (failed_reviews_fill_the_panels sample.refuses sample.processor
           (map paper_of [sample.r1; sample.r2])
           (ForeignExn true "429 quota exceeded")).
  - intros h m p c. reflexivity.
  - reflexivity.
Defined.

Lemma second_click_repeats_reviews_witness :
  let ui := mkInputs "secret" "LLM Agents" 3 true in
  let w1 := snd (main sample.two_results sample.answers ui sample.w0) in
  let w2 := snd (main sample.two_results sample.answers ui (advance 900 w1)) in
  arxiv_requests (since sample.w0 w1) = [search_of "LLM Agents" 3]
  /\ arxiv_requests (since (advance 900 w1) w2) = []
  /\ gemini_requests (since (advance 900 w1) w2) = gemini_requests (since sample.w0 w1).
Proof.
  intros ui.
  assert (Hkey : api_key ui <> EmptyString) by discriminate.
  assert (Hdt : (0 <= 900 < 3600)%Z) by lia.
  exact (second_click_repeats_reviews sample.two_results sample.answers ui
           sample.w0 900 two_results_errors answers_errors Hkey eq_refl eq_refl Hdt).
Defined.

Example nesting_checks :
  nesting [] [Enter st.container; Enter (st.column 0); Exit (st.column 0);
              Exit st.container] = Some []
  /\ nesting [] [Enter st.container; Enter (st.column 0); Exit st.container] = None
  /\ nesting [] [Enter st.sidebar] = Some [st.sidebar]
  /\ nesting [] [Exit st.sidebar] = None.
Proof. repeat split; reflexivity. Qed.

Example interrupted_run_is_well_nested :
  let '(r, w) :=
    main sample.two_results sample.stopped
      (mkInputs "secret" "LLM Agents" 3 true) sample.w0 in
  r = Raised (Foreign sample.interrupt)
  /\ nesting [] (trace w) = Some []
  /\ length (gemini_requests (trace w)) = 1.
Proof. vm_compute. repeat split; reflexivity. Qed.
